(** * listmate-assets: the decode-and-persist pipeline of [extract.ts]

    A shallow embedding of [src/extract.ts] and the properties of its
    data-URL stripper, its artifact persister and its requester.

    Conventions.
    - A JavaScript string is a [string]: a sequence of 8-bit code units (the
      Latin-1 range of JavaScript's UTF-16 code units).
    - [string | undefined] and [string | null] are [option string].
    - An [async] function is a function in the monad [Async]: it threads the
      world (file system, the calls made on it, console) and either returns
      or throws; [await] is the monad's bind, [try]/[catch] is [try_catch].
    - The host platform (JSON engine, UTF-8 decoder, [path.join],
      [fs/promises], [fetch]) is the interface [Runtime]; the program is
      embedded over every runtime.  [Buffer.from(s, 'base64')] is not left
      abstract: it is Node's lenient decoder, [Base64.Buffer_from_base64]. *)

From Stdlib Require Import NArith List Ascii String Bool Lia.
From Stdlib.Strings Require Import Byte.
From stdpp Require Import base gmap strings list pretty.

Open Scope string_scope.
Open Scope list_scope.

(** ** JavaScript string primitives *)

Module JS.

Definition comma : ascii := ","%char.
Definition newline : string := String "010"%char EmptyString.
Definition dquote : string := String "034"%char EmptyString.

(** [s] is the empty string. *)
Definition is_empty (s : string) : bool :=
  match s with EmptyString => true | String _ _ => false end.

(** Truthiness of a [string | undefined | null] value: only a non-empty
    string is truthy.  [truthy o = Some s] gives the string in the truthy
    branch. *)
Definition truthy (o : option string) : option string :=
  match o with
  | Some s => if is_empty s then None else Some s
  | None => None
  end.

(** [s.split(sep)] for a one-character separator. *)
Fixpoint split (sep : ascii) (s : string) : list string :=
  match s with
  | EmptyString => [EmptyString]
  | String c s' =>
      if Ascii.eqb c sep then EmptyString :: split sep s'
      else match split sep s' with
           | p :: ps => String c p :: ps
           | [] => [String c EmptyString]
           end
  end.

(** The segment of [s] before its first [sep]; all of [s] when it has
    none. *)
Fixpoint before_first (sep : ascii) (s : string) : string :=
  match s with
  | EmptyString => EmptyString
  | String c s' => if Ascii.eqb c sep then EmptyString else String c (before_first sep s')
  end.

(** [parts.join(sep)] *)
Definition join (sep : string) (parts : list string) : string :=
  String.concat sep parts.

(** [parts.slice(1)] *)
Definition slice1 (parts : list string) : list string := tl parts.

(** [hay.includes(needle)] *)
Fixpoint includes (needle hay : string) : bool :=
  String.prefix needle hay ||
  match hay with
  | EmptyString => false
  | String _ hay' => includes needle hay'
  end.

(** [s.substring(0, n)] *)
Definition substring0 (n : nat) (s : string) : string := String.substring 0 n s.

(** White space and line terminators of the Latin-1 range, as [trim] sees
    them: TAB, LF, VT, FF, CR, SP and NBSP. *)
Definition is_space (c : ascii) : bool :=
  let n := N_of_ascii c in
  ((9 <=? n) && (n <=? 13))%N || (n =? 32)%N || (n =? 160)%N.

Fixpoint trimStart (s : string) : string :=
  match s with
  | EmptyString => EmptyString
  | String c s' => if is_space c then trimStart s' else s
  end.

Fixpoint trimEnd (s : string) : string :=
  match s with
  | EmptyString => EmptyString
  | String c s' =>
      match trimEnd s' with
      | EmptyString => if is_space c then EmptyString else String c EmptyString
      | t => String c t
      end
  end.

(** [s.trim()] *)
Definition trim (s : string) : string := trimEnd (trimStart s).

End JS.

(** ** Base64, as [Buffer] reads and writes it *)

Module Base64.

Definition alphabet : string :=
  "ABCDEFGHIJKLMNOPQRSTUVWXYZabcdefghijklmnopqrstuvwxyz0123456789+/".

Definition pad : ascii := "="%char.

(** The character of a sextet. *)
Definition b64char (v : N) : ascii :=
  match String.get (N.to_nat v) alphabet with
  | Some c => c
  | None => pad
  end.

(** The sextet of a character; [None] for a character outside the
    alphabet.  Node's table also reads the URL-safe [-] and [_]. *)
Definition unbase64 (c : ascii) : option N :=
  let n := N_of_ascii c in
  if ((65 <=? n) && (n <=? 90))%N then Some (n - 65)%N
  else if ((97 <=? n) && (n <=? 122))%N then Some (n - 71)%N
  else if ((48 <=? n) && (n <=? 57))%N then Some (n + 4)%N
  else if ((n =? 43) || (n =? 45))%N then Some 62%N
  else if ((n =? 47) || (n =? 95))%N then Some 63%N
  else None.

(** Storing a number into a byte keeps its low 8 bits. *)
Definition u8 (n : N) : byte :=
  match Byte.of_N (n mod 256) with
  | Some b => b
  | None => x00
  end.

(** The sextets the lenient decoder reads: characters outside the
    alphabet (white space included) are skipped, the first [=] stops the
    decoding. *)
Fixpoint sextets (s : string) : list N :=
  match s with
  | EmptyString => []
  | String c s' =>
      if Ascii.eqb c pad then []
      else match unbase64 c with
           | Some v => v :: sextets s'
           | None => sextets s'
           end
  end.

Definition dec1 (hi lo : N) : byte :=
  u8 (N.lor (N.shiftl (N.land hi 63) 2) (N.shiftr (N.land lo 48) 4)).
Definition dec2 (hi lo : N) : byte :=
  u8 (N.lor (N.shiftl (N.land hi 15) 4) (N.shiftr (N.land lo 60) 2)).
Definition dec3 (hi lo : N) : byte :=
  u8 (N.lor (N.shiftl (N.land hi 3) 6) (N.land lo 63)).

(** Four sextets give three bytes; a last group of two or three sextets
    gives one or two bytes, a single left-over sextet gives none. *)
Fixpoint pack (l : list N) : list byte :=
  match l with
  | a :: b :: c :: d :: rest => dec1 a b :: dec2 b c :: dec3 c d :: pack rest
  | [a; b; c] => [dec1 a b; dec2 b c]
  | [a; b] => [dec1 a b]
  | _ => []
  end.

(** [Buffer.from(s, 'base64')]: total, never throws. *)
Definition Buffer_from_base64 (s : string) : list byte := pack (sextets s).

Definition enc1 (b1 : byte) : N := N.shiftr (Byte.to_N b1) 2.
Definition enc2 (b1 b2 : byte) : N :=
  N.lor (N.shiftl (N.land (Byte.to_N b1) 3) 4) (N.shiftr (Byte.to_N b2) 4).
Definition enc3 (b2 b3 : byte) : N :=
  N.lor (N.shiftl (N.land (Byte.to_N b2) 15) 2) (N.shiftr (Byte.to_N b3) 6).
Definition enc4 (b3 : byte) : N := N.land (Byte.to_N b3) 63.

(** [buffer.toString('base64')]: the padded encoding of RFC 4648. *)
Fixpoint toString_base64 (bs : list byte) : string :=
  match bs with
  | b1 :: b2 :: b3 :: rest =>
      String (b64char (enc1 b1)) (String (b64char (enc2 b1 b2))
        (String (b64char (enc3 b2 b3)) (String (b64char (enc4 b3))
          (toString_base64 rest))))
  | [b1; b2] =>
      String (b64char (enc1 b1)) (String (b64char (enc2 b1 b2))
        (String (b64char (enc3 b2 x00)) (String pad EmptyString)))
  | [b1] =>
      String (b64char (enc1 b1)) (String (b64char (enc2 b1 x00))
        (String pad (String pad EmptyString)))
  | [] => EmptyString
  end.

(** The 256 bytes, for properties checked byte by byte. *)
Definition all_bytes : list byte := map (fun n => u8 (N.of_nat n)) (seq 0 256).

(** Canonical base64 text: alphabet characters only, in groups of four,
    the last group padded with at most two [=]. *)
Definition is_std_char (c : ascii) : bool :=
  match unbase64 c with
  | Some _ => negb (Ascii.eqb c "-"%char) && negb (Ascii.eqb c "_"%char)
  | None => false
  end.

Fixpoint valid_base64 (s : string) : bool :=
  match s with
  | EmptyString => true
  | String a (String b (String c (String d EmptyString))) =>
      is_std_char a && is_std_char b &&
      ((is_std_char c && (is_std_char d || Ascii.eqb d pad))
       || (Ascii.eqb c pad && Ascii.eqb d pad))
  | String a (String b (String c (String d rest))) =>
      is_std_char a && is_std_char b && is_std_char c && is_std_char d &&
      valid_base64 rest
  | _ => false
  end.

(** A character that is neither of the alphabet nor the padding. *)
Definition is_noise (c : ascii) : bool :=
  match unbase64 c with
  | Some _ => false
  | None => negb (Ascii.eqb c pad)
  end.

(** The string without its characters that are neither of the alphabet
    nor the padding. *)
Fixpoint sift (s : string) : string :=
  match s with
  | EmptyString => EmptyString
  | String c s' => if is_noise c then sift s' else String c (sift s')
  end.

End Base64.

Definition bytes_of_string (s : string) : list byte :=
  map byte_of_ascii (list_ascii_of_string s).


(** ** Values exchanged with the platform *)

(** What a JavaScript computation can throw. *)
Inductive JsError : Type :=
  | SyntaxError (msg : string)
  | TypeError (msg : string)
  | SystemError (code : string).

(** A computation returns a value or throws. *)
Inductive Outcome (A : Type) : Type :=
  | Returned (a : A)
  | Thrown (e : JsError).
Arguments Returned {A} a.
Arguments Thrown {A} e.

Definition returned {A} (o : Outcome A) : bool :=
  match o with Returned _ => true | Thrown _ => false end.

(** What [fs.writeFile] is given: a [Buffer] or a string. *)
Inductive FileData : Type :=
  | Bytes (b : list byte)
  | Text (s : string).

Definition is_nonempty_data (d : FileData) : bool :=
  match d with
  | Bytes b => negb (Nat.eqb (length b) 0)
  | Text s => negb (JS.is_empty s)
  end.

(** The calls the program makes on [fs/promises]. *)
Inductive FsOp : Type :=
  | mkdir (path : string) (recursive : bool)
  | writeFile (path : string) (data : FileData)
  | unlink (path : string).

(** A call together with what it did: returned or threw. *)
Definition FsCall : Type := FsOp * Outcome unit.

(** The arguments of a console call after the message. *)
Inductive LogArg : Type :=
  | ErrArg (e : JsError)
  | StrArg (s : string).

Inductive LogLine : Type :=
  | LOG (msg : string)
  | WARN (msg : string)
  | ERROR (msg : string) (args : list LogArg).

(** [interface MusicAnalysisOutput]: optional string fields under fixed
    names plus an index signature, a map from field names to strings. *)
Abbreviation MusicAnalysisOutput := (gmap string string).

(** [interface ApiPredictionResponse]; [output] is tested for absence by
    the code, so it is optional here. *)
Record ApiPredictionResponse : Type := {
  output : option MusicAnalysisOutput;
  logs : option string;
  status : option string;
  error : option string
}.

Module Http.

(** The [input] object of the request body. *)
Record Input : Type := {
  music_input : string;
  visualize : bool;
  sonify : bool
}.

(** [RequestInit]; [body] is the payload that [JSON.stringify] serialises. *)
Record RequestInit : Type := {
  method : string;
  headers : list (string * string);
  body : Input
}.

(** A [Response] of node-fetch: [text] and [json] are what the calls
    [response.text()] and [response.json()] do.  A parsed body is cast to
    [ApiPredictionResponse] by the code; the body [null], on which a
    property access throws, is [None]. *)
Record Response : Type := {
  ok : bool;
  status : nat;
  statusText : string;
  text : Outcome string;
  json : Outcome (option ApiPredictionResponse)
}.

End Http.

(** ** The host platform *)

Class Runtime : Type := {
  (** the values [JSON.parse] produces *)
  JSValue : Type;
  (** [JSON.parse(text)]; throws a [SyntaxError] on a malformed text *)
  JSON_parse : string -> Outcome JSValue;
  (** [JSON.stringify(value, null, 2)] *)
  JSON_stringify : JSValue -> string;
  (** [buffer.toString('utf-8')] *)
  toString_utf8 : list byte -> string;
  (** [path.join(dir, name)] *)
  path_join : string -> string -> string;
  (** the state of the file system, and what a call does to it *)
  FS : Type;
  fs_exec : FsOp -> FS -> Outcome unit * FS;
  (** [fetch(url, init)] *)
  fetch : string -> Http.RequestInit -> Outcome Http.Response
}.

(** ** The program *)

Section Program.

Context {RT : Runtime}.

Record World : Type := {
  w_fs : FS;
  w_calls : list FsCall;
  w_console : list LogLine
}.

Definition Async (A : Type) : Type := World -> Outcome A * World.

Definition ret {A} (a : A) : Async A := fun w => (Returned a, w).

Definition bind {A B} (m : Async A) (k : A -> Async B) : Async B :=
  fun w =>
    match m w with
    | (Returned a, w') => k a w'
    | (Thrown e, w') => (Thrown e, w')
    end.

(** [try { body } catch (e) { handler }] *)
Definition try_catch {A} (body : Async A) (handler : JsError -> Async A) : Async A :=
  fun w =>
    match body w with
    | (Returned a, w') => (Returned a, w')
    | (Thrown e, w') => handler e w'
    end.

(** A synchronous call that may throw. *)
Definition of_outcome {A} (o : Outcome A) : Async A := fun w => (o, w).

(** The object a property is read from: reading a property of [null]
    throws a [TypeError]. *)
Definition property_of {A} (o : option A) (name : string) : Async A :=
  match o with
  | Some a => ret a
  | None =>
      of_outcome
        (Thrown (TypeError ("Cannot read properties of null (reading '" +:+ name +:+ "')")))
  end.

Definition console_emit (l : LogLine) : Async unit :=
  fun w =>
    (Returned tt,
     {| w_fs := w_fs w; w_calls := w_calls w; w_console := w_console w ++ [l] |}).

Definition console_log (msg : string) : Async unit := console_emit (LOG msg).
Definition console_warn (msg : string) : Async unit := console_emit (WARN msg).
Definition console_error (msg : string) (args : list LogArg) : Async unit :=
  console_emit (ERROR msg args).

(** A call on [fs/promises], recorded with its outcome. *)
Definition fs_call (op : FsOp) : Async unit :=
  fun w =>
    let (r, s) := fs_exec op (w_fs w) in
    (r, {| w_fs := s; w_calls := w_calls w ++ [(op, r)]; w_console := w_console w |}).

(** The world after some more lines on the console. *)
Definition logged (ls : list LogLine) (w : World) : World :=
  {| w_fs := w_fs w; w_calls := w_calls w; w_console := w_console w ++ ls |}.

Fixpoint for_of {A} (l : list A) (body : A -> Async unit) : Async unit :=
  match l with
  | [] => ret tt
  | x :: l' => bind (body x) (fun _ => for_of l' body)
  end.

End Program.

Declare Scope async_scope.
Delimit Scope async_scope with async.
Notation "x <- m ;; k" := (bind m (fun x => k))
  (at level 100, m at next level, k at level 200, right associativity) : async_scope.
Notation "m ;;; k" := (bind m (fun _ => k))
  (at level 100, k at level 200, right associativity) : async_scope.
Notation "'TRY' body 'CATCH' e => handler" := (try_catch body (fun e => handler))
  (at level 100, body at level 200, e name, handler at level 200) : async_scope.

Section Pipeline.

Context {RT : Runtime}.
Local Open Scope async_scope.

Definition API_URL : string := "https://music-analysis.lma.sh/predictions".
Definition DEFAULT_MUSIC_INPUT_URL : string :=
  "https://listmate-files.mateffy.me/examples/la_muerte.mp3".
Definition OUTPUT_DIRECTORY : string := "analysis_results".

(** [function stripDataUrlPrefixAndGetBase64] *)
Definition stripDataUrlPrefixAndGetBase64 (dataUrlString : option string)
  : Async (option string) :=
  match JS.truthy dataUrlString with
  | None => ret None
  | Some s =>
      let parts := JS.split JS.comma s in
      if Nat.ltb 1 (length parts) && JS.includes ";base64" (nth 0 parts EmptyString) then
        ret (Some (JS.join "," (JS.slice1 parts)))
      else
        console_warn
          ("String does not appear to be a 'data:TYPE;base64,DATA' URL: "
             +:+ JS.substring0 50 s +:+ "...") ;;;
        ret (Some s)
  end.

(** The test of [decodeAndSave]: [base64Data] is falsy or its [trim()] is
    the empty string. *)
Definition is_blank (base64Data : option string) : bool :=
  match JS.truthy base64Data with
  | None => true
  | Some b => JS.is_empty (JS.trim b)
  end.

(** [async function decodeAndSave] *)
Definition decodeAndSave (dataUrlString : option string) (filePath fileName : string)
  : Async unit :=
  base64Data <- stripDataUrlPrefixAndGetBase64 dataUrlString ;;
  if is_blank base64Data then
    console_warn
      ("Skipping " +:+ fileName
         +:+ ": Base64 data is empty or undefined after stripping prefix.")
  else
    let b := default EmptyString base64Data in
    TRY
      (let buffer := Base64.Buffer_from_base64 b in
       fs_call (writeFile filePath (Bytes buffer)) ;;;
       console_log ("Successfully saved " +:+ fileName +:+ " to " +:+ filePath))
    CATCH error =>
      (console_error
         ("Error decoding/saving " +:+ fileName +:+ " (path: " +:+ filePath +:+ "):")
         [ErrArg error] ;;;
       console_error
         ("Problematic base64 data (first 50 chars): "
            +:+ JS.substring0 50 b +:+ "...") [] ;;;
       TRY (TRY fs_call (unlink filePath) CATCH _e => ret tt)
       CATCH _e => ret tt).

(** [async function fetchMusicAnalysis] *)
Definition fetchMusicAnalysis (musicInputUrl : string) (visualize sonify : bool)
  : Async (option ApiPredictionResponse) :=
  console_log ("Fetching analysis for: " +:+ musicInputUrl) ;;;
  let payload :=
    {| Http.music_input := musicInputUrl;
       Http.visualize := visualize;
       Http.sonify := sonify |} in
  TRY
    (response <- of_outcome
       (fetch API_URL
          {| Http.method := "POST";
             Http.headers := [("Content-Type", "application/json")];
             Http.body := payload |}) ;;
     if negb (Http.ok response) then
       errorBody <- of_outcome (Http.text response) ;;
       console_error
         ("API request failed: " +:+ pretty (Http.status response)
            +:+ " " +:+ Http.statusText response)
         [StrArg errorBody] ;;;
       ret None
     else
       data' <- of_outcome (Http.json response) ;;
       console_log "Successfully fetched analysis data." ;;;
       data <- property_of data' "status" ;;
       match JS.truthy (status data) with
       | Some st =>
           if negb (String.eqb st "succeeded") then
             console_warn ("API returned status: " +:+ st) ;;;
             match JS.truthy (error data) with
             | Some err => console_error ("API Error: " +:+ err) []
             | None => ret tt
             end
           else ret tt
       | None => ret tt
       end ;;;
       ret (Some data))
  CATCH error =>
    (console_error "Error fetching music analysis:" [ErrArg error] ;;;
     ret None).

(** The block of [processAnalysisResults] that handles [analyzer_result]. *)
Definition processAnalyzerResult (output : MusicAnalysisOutput) (outputDir : string)
  : Async unit :=
  match JS.truthy (output !! "analyzer_result") with
  | Some analyzer_result =>
      let analysisFilePath := path_join outputDir "analysis.json" in
      base64JsonData' <- stripDataUrlPrefixAndGetBase64 (Some analyzer_result) ;;
      match JS.truthy base64JsonData' with
      | Some base64JsonData =>
          TRY
            (let decodedJsonString :=
               toString_utf8 (Base64.Buffer_from_base64 base64JsonData) in
             analysisData <- of_outcome (JSON_parse decodedJsonString) ;;
             fs_call (writeFile analysisFilePath (Text (JSON_stringify analysisData))) ;;;
             console_log ("Successfully saved analysis.json to " +:+ analysisFilePath))
          CATCH error =>
            (console_error "Error processing analyzer_result for analysis.json:"
               [ErrArg error] ;;;
             console_error
               ("Problematic base64 for JSON (first 50 chars): "
                  +:+ JS.substring0 50 base64JsonData +:+ "...") [] ;;;
             let errorFilePath := path_join outputDir "_error_analyzer_result_content.txt" in
             (TRY
                (let decodedForErrorFile :=
                   toString_utf8 (Base64.Buffer_from_base64 base64JsonData) in
                 fs_call
                   (writeFile errorFilePath
                      (Text ("Attempted to decode this as JSON (from base64):"
                               +:+ JS.newline +:+ JS.newline +:+ decodedForErrorFile))))
              CATCH _e =>
                fs_call
                  (writeFile errorFilePath
                     (Text ("Could not even base64 decode this for the error file. Original base64 (after prefix strip):"
                              +:+ JS.newline +:+ JS.newline +:+ base64JsonData)))) ;;;
             console_error
               ("Saved problematic decoded content (or base64) to " +:+ errorFilePath) [])
      | None =>
          console_warn
            "analyzer_result was present but became null/empty after attempting to strip data URL prefix."
      end
  | None => console_warn "analyzer_result not found in output."
  end.

(** The block that handles [visualization]. *)
Definition processVisualization (output : MusicAnalysisOutput) (outputDir : string)
  : Async unit :=
  match JS.truthy (output !! "visualization") with
  | Some visualization =>
      let visFilePath := path_join outputDir "visualization.png" in
      decodeAndSave (Some visualization) visFilePath "visualization.png"
  | None => console_warn "visualization not found in output."
  end.

Definition audioFileKeys : list string :=
  [ "demucs_bass"; "demucs_drums"; "demucs_guitar"; "demucs_other";
    "demucs_piano"; "demucs_vocals"; "mdx_instrumental"; "mdx_other";
    "mdx_vocals"; "sonification" ].

Definition audioFileName (key : string) : string :=
  let fileExtension := if String.eqb key "sonification" then ".mp3" else ".wav" in
  key +:+ fileExtension.

(** The body of the loop over [audioFileKeys]. *)
Definition processAudioKey (output : MusicAnalysisOutput) (outputDir : string)
    (key : string) : Async unit :=
  match JS.truthy (output !! key) with
  | Some dataUrlString =>
      let fileName := audioFileName key in
      let filePath := path_join outputDir fileName in
      decodeAndSave (Some dataUrlString) filePath fileName
  | None => console_warn (key +:+ " not found in output or is empty.")
  end.

(** [async function processAnalysisResults] *)
Definition processAnalysisResults (apiResponse : ApiPredictionResponse)
    (outputDir : string) : Async unit :=
  match output apiResponse with
  | None =>
      console_error
        ("No " +:+ JS.dquote +:+ "output" +:+ JS.dquote +:+ " data found. Cannot process.") [] ;;;
      match JS.truthy (error apiResponse) with
      | Some err => console_error ("API Error was: " +:+ err) []
      | None => ret tt
      end
  | Some output =>
      fs_call (mkdir outputDir true) ;;;
      console_log ("Ensured output directory exists: " +:+ outputDir) ;;;
      processAnalyzerResult output outputDir ;;;
      processVisualization output outputDir ;;;
      console_log (JS.newline +:+ "--- Processing Audio Files ---") ;;;
      for_of audioFileKeys (processAudioKey output outputDir) ;;;
      console_log "--- Finished processing all output fields ---"
  end.

(** [async function main]; [argv2] is [process.argv[2]]. *)
Definition main (argv2 : option string) : Async unit :=
  let musicUrl :=
    match JS.truthy argv2 with
    | Some url => url
    | None => DEFAULT_MUSIC_INPUT_URL
    end in
  let shouldVisualize := true in
  let shouldSonify := true in
  console_log "--- Starting Music Analysis Processor ---" ;;;
  analysisData <- fetchMusicAnalysis musicUrl shouldVisualize shouldSonify ;;
  match analysisData with
  | Some data => processAnalysisResults data OUTPUT_DIRECTORY
  | None => console_error "Failed to retrieve analysis data. Exiting." []
  end ;;;
  console_log (JS.newline +:+ "--- Processor Finished ---").

(** Among the calls [cs] of a run is the write of the bytes decoded from
    [b] to [filePath]; when that write threw, the error is among the
    console lines [ls]. *)
Definition attempted (cs : list FsCall) (ls : list LogLine)
    (filePath fileName : string) (b : option string) : Prop :=
  exists r,
    In (writeFile filePath
          (Bytes (Base64.Buffer_from_base64 (default EmptyString b))), r) cs
    /\ forall e, r = Thrown e ->
         In (ERROR ("Error decoding/saving " +:+ fileName
                      +:+ " (path: " +:+ filePath +:+ "):") [ErrArg e]) ls.

(** What a run shows of the JSON field whose stripped data is
    [base64JsonData]: when the decoded text parses, the write of
    [analysis.json] is among the calls [cs]; when the parse or that write
    threw, the error is among the console lines [ls] and the decoded text
    was written to the diagnostic file. *)
Definition json_handled (cs : list FsCall) (ls : list LogLine)
    (outputDir base64JsonData : string) : Prop :=
  let decoded := toString_utf8 (Base64.Buffer_from_base64 base64JsonData) in
  let caught e :=
    In (ERROR "Error processing analyzer_result for analysis.json:" [ErrArg e]) ls
    /\ In (writeFile (path_join outputDir "_error_analyzer_result_content.txt")
             (Text ("Attempted to decode this as JSON (from base64):"
                      +:+ JS.newline +:+ JS.newline +:+ decoded)), Returned tt) cs in
  match JSON_parse decoded with
  | Returned analysisData =>
      exists r,
        In (writeFile (path_join outputDir "analysis.json")
              (Text (JSON_stringify analysisData)), r) cs
        /\ forall e, r = Thrown e -> caught e
  | Thrown e => caught e
  end.

(** The binary fields of the catalog with their file names. *)
Definition binaryArtifacts : list (string * string) :=
  ("visualization", "visualization.png")
    :: map (fun key => (key, audioFileName key)) audioFileKeys.

End Pipeline.

(** ** A concrete runtime

    An in-memory file system in which a given set of paths is inaccessible,
    a JSON engine for the texts [null], [true], [false], the empty array and
    the empty object, a decoder that reads each byte as one character
    (UTF-8 on ASCII bytes), a [path.join] for a directory without trailing
    separator, and a server given by its answer. *)

Module Mem.

Record MemFS : Type := {
  files : gmap string FileData;
  dirs : gset string
}.

Definition empty : MemFS := {| files := ∅; dirs := ∅ |}.

Definition exec (denied : string -> bool) (op : FsOp) (s : MemFS)
  : Outcome unit * MemFS :=
  match op with
  | mkdir p _ =>
      if denied p then (Thrown (SystemError "EACCES"), s)
      else (Returned tt, {| files := files s; dirs := {[p]} ∪ dirs s |})
  | writeFile p d =>
      if denied p then (Thrown (SystemError "EACCES"), s)
      else (Returned tt, {| files := <[p:=d]> (files s); dirs := dirs s |})
  | unlink p =>
      if denied p then (Thrown (SystemError "EACCES"), s)
      else match files s !! p with
           | Some _ => (Returned tt, {| files := delete p (files s); dirs := dirs s |})
           | None => (Thrown (SystemError "ENOENT"), s)
           end
  end.

Inductive Value : Type :=
  | JNull
  | JBool (b : bool)
  | JEmptyArray
  | JEmptyObject.

Definition parse (text : string) : Outcome Value :=
  if String.eqb text "null" then Returned JNull
  else if String.eqb text "true" then Returned (JBool true)
  else if String.eqb text "false" then Returned (JBool false)
  else if String.eqb text "[]" then Returned JEmptyArray
  else if String.eqb text "{}" then Returned JEmptyObject
  else Thrown (SyntaxError "Unexpected token").

Definition stringify (v : Value) : string :=
  match v with
  | JNull => "null"
  | JBool true => "true"
  | JBool false => "false"
  | JEmptyArray => "[]"
  | JEmptyObject => "{}"
  end.

Definition latin1 (bs : list byte) : string :=
  string_of_list_ascii (map ascii_of_byte bs).

Definition join_path (dir name : string) : string := dir +:+ "/" +:+ name.

Definition runtime (denied : string -> bool)
    (server : string -> Http.RequestInit -> Outcome Http.Response) : Runtime :=
  {| JSValue := Value;
     JSON_parse := parse;
     JSON_stringify := stringify;
     toString_utf8 := latin1;
     path_join := join_path;
     FS := MemFS;
     fs_exec := exec denied;
     fetch := server |}.

(** A server that answers every request with HTTP 500. *)
Definition server_500 (url : string) (init : Http.RequestInit) : Outcome Http.Response :=
  Returned
    {| Http.ok := false;
       Http.status := 500;
       Http.statusText := "Internal Server Error";
       Http.text := Returned "internal error";
       Http.json := Thrown (SyntaxError "Unexpected token i in JSON at position 0") |}.

(** No network. *)
Definition offline (url : string) (init : Http.RequestInit) : Outcome Http.Response :=
  Thrown (SystemError "ECONNREFUSED").

(** Every path is accessible. *)
Definition ideal : Runtime := runtime (fun _ => false) server_500.

(** No path is accessible: a read-only file system. *)
Definition read_only : Runtime := runtime (fun _ => true) offline.

(** One audio file cannot be written. *)
Definition no_audio : Runtime :=
  runtime (fun p => String.eqb p "analysis_results/demucs_bass.wav") offline.

(** Neither the JSON file nor its diagnostic file can be written. *)
Definition no_json : Runtime :=
  runtime
    (fun p => String.eqb p "analysis_results/analysis.json"
              || String.eqb p "analysis_results/_error_analyzer_result_content.txt")
    offline.

Definition world0 (RT : Runtime) (s : @FS RT) : @World RT :=
  {| w_fs := s; w_calls := []; w_console := [] |}.

(** An empty disk, no call made, nothing on the console. *)
Definition start : @World ideal := world0 ideal empty.
Definition start_read_only : @World read_only := world0 read_only empty.
Definition start_no_audio : @World no_audio := world0 no_audio empty.
Definition start_no_json : @World no_json := world0 no_json empty.

(** A disk whose next [failing] writes fail, whatever their path. *)
Record FlakyFS : Type := {
  disk : MemFS;
  failing : nat
}.

Definition exec_flaky (op : FsOp) (s : FlakyFS) : Outcome unit * FlakyFS :=
  match op, failing s with
  | writeFile _ _, S n => (Thrown (SystemError "EIO"), {| disk := disk s; failing := n |})
  | _, _ =>
      let (r, d) := exec (fun _ => false) op (disk s) in
      (r, {| disk := d; failing := failing s |})
  end.

Definition flaky : Runtime :=
  {| JSValue := Value;
     JSON_parse := parse;
     JSON_stringify := stringify;
     toString_utf8 := latin1;
     path_join := join_path;
     FS := FlakyFS;
     fs_exec := exec_flaky;
     fetch := offline |}.

Definition start_flaky (n : nat) : @World flaky :=
  world0 flaky {| disk := empty; failing := n |}.


(** A server that answers with [data], under the status 200. *)
Definition serving (data : option ApiPredictionResponse)
    (url : string) (init : Http.RequestInit) : Outcome Http.Response :=
  Returned
    {| Http.ok := true;
       Http.status := 200;
       Http.statusText := "OK";
       Http.text := Returned EmptyString;
       Http.json := Returned data |}.

(** Every path is accessible and the server answers with [data]. *)
Definition served (data : option ApiPredictionResponse) : Runtime :=
  runtime (fun _ => false) (serving data).

Definition start_served (data : option ApiPredictionResponse) : @World (served data) :=
  world0 (served data) empty.

(** A JSON engine for the texts [null] and [1e999].  The number overflows:
    [JSON.parse] reads it as [Infinity], which [JSON.stringify] writes as
    [null]. *)
Inductive Number : Type :=
  | Null
  | Infinity.

Definition parse_number (text : string) : Outcome Number :=
  if String.eqb text "null" then Returned Null
  else if String.eqb text "1e999" then Returned Infinity
  else Thrown (SyntaxError "Unexpected token").

Definition stringify_number (v : Number) : string :=
  match v with
  | Null => "null"
  | Infinity => "null"
  end.

(** Every path is accessible; the JSON engine is the one above. *)
Definition overflowing : Runtime :=
  {| JSValue := Number;
     JSON_parse := parse_number;
     JSON_stringify := stringify_number;
     toString_utf8 := latin1;
     path_join := join_path;
     FS := MemFS;
     fs_exec := exec (fun _ => false);
     fetch := offline |}.

Definition start_overflowing : @World overflowing := world0 overflowing empty.

End Mem.

(** ** Data URLs and sample inputs *)

Module DataURL.

(** [data:<mime>;base64,<payload>] *)
Definition wrap (mime payload : string) : string :=
  "data:" +:+ mime +:+ ";base64," +:+ payload.

(** The data URL of a byte sequence. *)
Definition of_bytes (mime : string) (content : list byte) : string :=
  wrap mime (Base64.toString_base64 content).

(** A media type has no comma (RFC 2397 has it percent-encoded). *)
Definition valid_mime (mime : string) : bool := negb (JS.includes "," mime).

(** The field [key] of the bundle holds a valid data URL of the non-empty
    byte sequence [content]. *)
Definition holds (output : gmap string string) (key : string) (content : list byte)
  : Prop :=
  content <> [] /\
  exists mime, valid_mime mime = true /\ output !! key = Some (of_bytes mime content).

End DataURL.

Module Sample.

Definition audio : list byte := bytes_of_string "RIFF".

Definition bundle (analyzer_result : string) : MusicAnalysisOutput :=
  list_to_map
    (("analyzer_result", analyzer_result)
       :: ("visualization", DataURL.of_bytes "image/png" (bytes_of_string "PNG"))
       :: map (fun key => (key, DataURL.of_bytes "audio/wav" audio)) audioFileKeys).

Definition response (o : option MusicAnalysisOutput) : ApiPredictionResponse :=
  {| output := o; logs := None; status := Some "succeeded"; error := None |}.

(** All twelve fields hold valid data URLs; the JSON text is [{}]. *)
Definition full : MusicAnalysisOutput :=
  bundle (DataURL.of_bytes "application/json" (bytes_of_string "{}")).

(** All twelve fields hold valid data URLs; the JSON text is [1e999]. *)
Definition huge : MusicAnalysisOutput :=
  bundle (DataURL.of_bytes "application/json" (bytes_of_string "1e999")).

(** What the binary fields of [bundle] encode. *)
Definition content (key : string) : list byte :=
  if String.eqb key "visualization" then bytes_of_string "PNG" else audio.

(** A bundle with two fields of the catalogue and a field outside it. *)
Definition partial : MusicAnalysisOutput :=
  list_to_map
    [("visualization", DataURL.of_bytes "image/png" (bytes_of_string "PNG"));
     ("sonification", DataURL.of_bytes "audio/mpeg" audio);
     ("waveform", DataURL.of_bytes "image/png" (bytes_of_string "PNG"))].

(** A response that reports a failure and still carries all the fields. *)
Definition failed_with_output : ApiPredictionResponse :=
  {| output := Some full; logs := None; status := Some "failed";
     error := Some "model crashed" |}.

End Sample.

(** ** Notions the properties are stated with *)

Module Str.

(** What follows the first [sep] of [s]; empty when [s] has none. *)
Fixpoint after_first (sep : ascii) (s : string) : string :=
  match s with
  | EmptyString => EmptyString
  | String c s' => if Ascii.eqb c sep then s' else after_first sep s'
  end.

(** [s] has the character [sep]. *)
Fixpoint has_char (sep : ascii) (s : string) : bool :=
  match s with
  | EmptyString => false
  | String c s' => Ascii.eqb c sep || has_char sep s'
  end.

(** [s] is made of white space (the empty string is). *)
Fixpoint all_space (s : string) : bool :=
  match s with
  | EmptyString => true
  | String c s' => JS.is_space c && all_space s'
  end.

End Str.

Section Catalogue.

Context {RT : Runtime}.

(** The twelve fields that [processAnalysisResults] reads. *)
Definition catalogKeys : list string :=
  "analyzer_result" :: "visualization" :: audioFileKeys.

(** The names of the files it can touch. *)
Definition catalogFileNames : list string :=
  "analysis.json" :: "_error_analyzer_result_content.txt" :: map snd binaryArtifacts.

(** A call on a file of the output directory: a write or an unlink of one
    of the catalogue's files in it. *)
Definition within (outputDir : string) (c : FsCall) : Prop :=
  match fst c with
  | mkdir _ _ => False
  | writeFile p _ | unlink p =>
      exists name, In name catalogFileNames /\ p = path_join outputDir name
  end.

(** The field of the binary artifact [a] is truthy in the bundle. *)
Definition populated (bundle : MusicAnalysisOutput) (a : string * string) : bool :=
  match JS.truthy (bundle !! fst a) with
  | Some _ => true
  | None => false
  end.

(** The console line of the binary artifact [a] on a run whose writes
    succeed: the report of the saved file when its field is populated with
    a data URL, the warning [missing] when it is not. *)
Definition artifactLine (bundle : MusicAnalysisOutput) (outputDir missing : string)
    (a : string * string) : LogLine :=
  if populated bundle a
  then LOG ("Successfully saved " +:+ snd a +:+ " to " +:+ path_join outputDir (snd a))
  else WARN missing.

(** The request [fetchMusicAnalysis] sends. *)
Definition analysis_request (musicInputUrl : string) (visualize sonify : bool)
  : Http.RequestInit :=
  {| Http.method := "POST";
     Http.headers := [("Content-Type", "application/json")];
     Http.body := {| Http.music_input := musicInputUrl;
                     Http.visualize := visualize;
                     Http.sonify := sonify |} |}.

(** The data in the answer of the server: none when [fetch] threw, when
    the status is not a success, when the body is not JSON or is [null]. *)
Definition delivered (answer : Outcome Http.Response) : option ApiPredictionResponse :=
  match answer with
  | Returned response =>
      if Http.ok response then
        match Http.json response with
        | Returned (Some data) => Some data
        | _ => None
        end
      else None
  | Thrown _ => None
  end.

(** The music URL of a run of [main]. *)
Definition music_url (argv2 : option string) : string :=
  match JS.truthy argv2 with
  | Some url => url
  | None => DEFAULT_MUSIC_INPUT_URL
  end.

End Catalogue.

(** * Properties *)

(** In a goal that runs [fs_exec] on a write that the hypothesis [H] makes
    succeed: name the state after the write. *)
Ltac write_succeeds H s' :=
  match goal with
  | |- context [fs_exec (writeFile ?p ?d) ?s] =>
      let Hw := fresh "Hw" in
      let r := fresh "r" in
      pose proof (H d s) as Hw || pose proof (H p d s) as Hw;
      destruct (fs_exec (writeFile p d) s) as [r s'];
      cbn [fst] in Hw; subst r
  end.

(** In a goal [exists r w', m w = (Returned r, w') /\ ...] whose run has
    been reduced to a pair: give the pair, then compare the fields of the
    world. *)
Ltac ran :=
  eexists _, _; split; [reflexivity|];
  cbn [w_fs w_calls w_console]; rewrite <- ?app_assoc; repeat split.

(** ** Strings *)

Module JSFacts.

Import JS.

Lemma append_cons c s t : String c s +:+ t = String c (s +:+ t).
Proof. reflexivity. Qed.

Lemma append_empty t : EmptyString +:+ t = t.
Proof. reflexivity. Qed.

Lemma split_not_nil sep s : split sep s <> [].
Proof.
  destruct s as [|c s]; simpl; [discriminate|].
  destruct (Ascii.eqb c sep); [discriminate|].
  destruct (split sep s); discriminate.
Qed.

(** [parts[0]] is the segment before the first separator. *)
Lemma split_head sep s : nth 0 (split sep s) EmptyString = before_first sep s.
Proof.
  induction s as [|c s IH]; simpl; [reflexivity|].
  destruct (Ascii.eqb c sep); [reflexivity|].
  destruct (split sep s) as [|p ps] eqn:E.
  - exfalso. exact (split_not_nil _ _ E).
  - simpl in *. now rewrite IH.
Qed.

Lemma concat_cons sep a b l :
  String.concat sep (a :: b :: l) = a +:+ sep +:+ String.concat sep (b :: l).
Proof. reflexivity. Qed.

(** Joining the parts with the separator gives the string back. *)
Lemma join_split sep s : join (String sep EmptyString) (split sep s) = s.
Proof.
  unfold join. induction s as [|c s IH]; [reflexivity|].
  cbn [split].
  destruct (split sep s) as [|p ps] eqn:E; [exfalso; exact (split_not_nil _ _ E)|].
  destruct (Ascii.eqb_spec c sep) as [->|Hne].
  - rewrite concat_cons, IH. reflexivity.
  - destruct ps as [|q qs].
    + simpl in *. now rewrite IH.
    + rewrite concat_cons in *. rewrite append_cons. now rewrite IH.
Qed.

Lemma includes_char_cons sep c s :
  includes (String sep EmptyString) (String c s) = false ->
  Ascii.eqb c sep = false /\ includes (String sep EmptyString) s = false.
Proof.
  cbn [includes String.prefix]. intros H.
  apply orb_false_elim in H as [H1 H2]. split; [|exact H2].
  destruct (Ascii.eqb_spec c sep) as [->|]; [|reflexivity].
  destruct (ascii_dec sep sep); [|congruence].
  destruct s; discriminate.
Qed.

Lemma includes_char_intro sep c s :
  Ascii.eqb c sep = false -> includes (String sep EmptyString) s = false ->
  includes (String sep EmptyString) (String c s) = false.
Proof.
  intros Hc Hs. cbn [includes String.prefix]. rewrite Hs.
  destruct (ascii_dec sep c) as [->|_]; [|reflexivity].
  now rewrite Ascii.eqb_refl in Hc.
Qed.

Lemma includes_char_app sep a b :
  includes (String sep EmptyString) a = false ->
  includes (String sep EmptyString) b = false ->
  includes (String sep EmptyString) (a +:+ b) = false.
Proof.
  intros Ha Hb. induction a as [|c a IH]; [exact Hb|].
  apply includes_char_cons in Ha as [Hc Ha].
  rewrite append_cons. apply includes_char_intro; auto.
Qed.

(** Splitting at the first separator. *)
Lemma split_app sep pre rest :
  includes (String sep EmptyString) pre = false ->
  split sep (pre +:+ String sep rest) = pre :: split sep rest.
Proof.
  induction pre as [|c pre IH]; intros H.
  - rewrite append_empty. cbn [split]. now rewrite Ascii.eqb_refl.
  - apply includes_char_cons in H as [Hc Hp].
    rewrite append_cons. cbn [split]. rewrite Hc, (IH Hp). reflexivity.
Qed.

Lemma prefix_refl s : String.prefix s s = true.
Proof.
  induction s as [|c s IH]; simpl; [reflexivity|].
  destruct (ascii_dec c c); [exact IH|congruence].
Qed.

Lemma includes_suffix needle s : includes needle (s +:+ needle) = true.
Proof.
  induction s as [|c s IH].
  - rewrite append_empty. destruct needle; cbn [includes].
    + reflexivity.
    + now rewrite prefix_refl.
  - rewrite append_cons. cbn [includes]. rewrite IH. apply orb_true_r.
Qed.

Lemma append_assoc s t u : (s +:+ t) +:+ u = s +:+ (t +:+ u).
Proof.
  induction s as [|c s IH]; [reflexivity|].
  rewrite !append_cons. now rewrite IH.
Qed.

Lemma substring0_length n s : String.length (substring0 n s) <= n.
Proof.
  unfold substring0. revert s. induction n as [|n IH]; intros [|c s]; simpl; try lia.
  specialize (IH s). lia.
Qed.

Lemma substring0_prefix n s : String.prefix (substring0 n s) s = true.
Proof.
  unfold substring0. revert s. induction n as [|n IH]; intros [|c s]; simpl; try reflexivity.
  destruct (ascii_dec c c); [apply IH|congruence].
Qed.

Lemma is_empty_true s : is_empty s = true -> s = EmptyString.
Proof. destruct s; [reflexivity|discriminate]. Qed.

Lemma truthy_Some o s : truthy o = Some s -> o = Some s /\ is_empty s = false.
Proof.
  destruct o as [t|]; simpl; [|discriminate].
  destruct (is_empty t) eqn:E; [discriminate|]. intros [= ->]. now split.
Qed.

Lemma truthy_nonempty s : is_empty s = false -> truthy (Some s) = Some s.
Proof. intros H. simpl. now rewrite H. Qed.

(** There is more than one part exactly when the string has the
    separator. *)
Lemma split_several sep s : Nat.ltb 1 (length (split sep s)) = Str.has_char sep s.
Proof.
  induction s as [|c s IH]; [reflexivity|]. cbn [split Str.has_char].
  destruct (split sep s) as [|p ps] eqn:E; [exfalso; exact (split_not_nil _ _ E)|].
  destruct (Ascii.eqb c sep); [reflexivity|]. exact IH.
Qed.

End JSFacts.

(** ** Base64: decoding an encoding *)

Module Base64Facts.

Import Base64.

Lemma in_all_bytes b : In b all_bytes.
Proof.
  unfold all_bytes. apply in_map_iff. exists (N.to_nat (Byte.to_N b)). split.
  - unfold u8. rewrite N2Nat.id.
    pose proof (Byte.to_N_bounded b) as Hb.
    rewrite N.mod_small by lia. now rewrite Byte.of_to_N.
  - apply in_seq. pose proof (Byte.to_N_bounded b). lia.
Qed.

Lemma forall_byte (P : byte -> bool) :
  forallb P all_bytes = true -> forall b, P b = true.
Proof. intros H b. exact (proj1 (forallb_forall P all_bytes) H b (in_all_bytes b)). Qed.

Lemma forall_byte2 (P : byte -> byte -> bool) :
  forallb (fun a => forallb (P a) all_bytes) all_bytes = true ->
  forall a b, P a b = true.
Proof.
  intros H a b.
  apply (forall_byte (P a)). exact (forall_byte (fun a => forallb (P a) all_bytes) H a).
Qed.

Lemma forall_sextet (P : N -> bool) :
  forallb P (map N.of_nat (seq 0 64)) = true ->
  forall v, (v < 64)%N -> P v = true.
Proof.
  intros H v Hv. apply (proj1 (forallb_forall P _) H).
  apply in_map_iff. exists (N.to_nat v). split; [apply N2Nat.id|].
  apply in_seq. lia.
Qed.

(** The table of characters and the table of sextets are inverse. *)
Lemma unbase64_b64char v :
  (v < 64)%N -> unbase64 (b64char v) = Some v /\ Ascii.eqb (b64char v) pad = false.
Proof.
  intros Hv.
  pose (P := fun v => match unbase64 (b64char v) with
                      | Some u => N.eqb u v && negb (Ascii.eqb (b64char v) pad)
                      | None => false
                      end).
  assert (HP : P v = true) by (apply forall_sextet; [vm_compute; reflexivity|exact Hv]).
  unfold P in HP. destruct (unbase64 (b64char v)) as [u|]; [|discriminate].
  apply andb_prop in HP as [H1 H2]. apply N.eqb_eq in H1 as ->.
  split; [reflexivity|]. now apply negb_true_iff in H2.
Qed.

Lemma sextets_b64char v s :
  (v < 64)%N -> sextets (String (b64char v) s) = v :: sextets s.
Proof.
  intros Hv. destruct (unbase64_b64char v Hv) as [H1 H2].
  cbn [sextets]. now rewrite H2, H1.
Qed.

Lemma sextets_pad s : sextets (String pad s) = [].
Proof. reflexivity. Qed.

Lemma enc1_lt b : (enc1 b < 64)%N.
Proof.
  apply N.ltb_lt. revert b. apply forall_byte. vm_compute. reflexivity.
Qed.

Lemma enc2_lt a b : (enc2 a b < 64)%N.
Proof.
  apply N.ltb_lt. revert a b.
  apply (forall_byte2 (fun a b => (enc2 a b <? 64)%N)). vm_compute. reflexivity.
Qed.

Lemma enc3_lt a b : (enc3 a b < 64)%N.
Proof.
  apply N.ltb_lt. revert a b.
  apply (forall_byte2 (fun a b => (enc3 a b <? 64)%N)). vm_compute. reflexivity.
Qed.

Lemma enc4_lt b : (enc4 b < 64)%N.
Proof.
  apply N.ltb_lt. revert b. apply forall_byte. vm_compute. reflexivity.
Qed.

(** The first byte of a group comes back from its first two sextets. *)
Lemma dec1_enc a b : dec1 (enc1 a) (enc2 a b) = a.
Proof.
  apply byte_dec_bl. revert a b.
  apply (forall_byte2 (fun a b => Byte.eqb (dec1 (enc1 a) (enc2 a b)) a)).
  vm_compute. reflexivity.
Qed.

(** The third byte comes back from the last two sextets. *)
Lemma dec3_enc b c : dec3 (enc3 b c) (enc4 c) = c.
Proof.
  apply byte_dec_bl. revert b c.
  apply (forall_byte2 (fun b c => Byte.eqb (dec3 (enc3 b c) (enc4 c)) c)).
  vm_compute. reflexivity.
Qed.

(** The second byte depends on the low four bits of the second sextet
    and on the high four bits of the third, which hold the second byte
    whatever its neighbours are. *)
Lemma dec2_masks hi lo : dec2 hi lo = dec2 (N.land hi 15) (N.land lo 60).
Proof.
  unfold dec2. rewrite <- !N.land_assoc. reflexivity.
Qed.

Lemma enc2_low a b : N.land (enc2 a b) 15 = N.land (enc2 x00 b) 15.
Proof.
  apply N.eqb_eq. revert a b.
  apply (forall_byte2 (fun a b => N.eqb (N.land (enc2 a b) 15) (N.land (enc2 x00 b) 15))).
  vm_compute. reflexivity.
Qed.

Lemma enc3_high b c : N.land (enc3 b c) 60 = N.land (enc3 b x00) 60.
Proof.
  apply N.eqb_eq. revert b c.
  apply (forall_byte2 (fun b c => N.eqb (N.land (enc3 b c) 60) (N.land (enc3 b x00) 60))).
  vm_compute. reflexivity.
Qed.

Lemma dec2_enc_00 b : dec2 (enc2 x00 b) (enc3 b x00) = b.
Proof.
  apply byte_dec_bl. revert b.
  apply (forall_byte (fun b => Byte.eqb (dec2 (enc2 x00 b) (enc3 b x00)) b)).
  vm_compute. reflexivity.
Qed.

Lemma dec2_enc a b c : dec2 (enc2 a b) (enc3 b c) = b.
Proof.
  rewrite dec2_masks, enc2_low, enc3_high, <- dec2_masks. apply dec2_enc_00.
Qed.

Lemma list_ind3 {A} (P : list A -> Prop) :
  P [] -> (forall a, P [a]) -> (forall a b, P [a; b]) ->
  (forall a b c l, P l -> P (a :: b :: c :: l)) ->
  forall l, P l.
Proof.
  intros H0 H1 H2 H3. fix IH 1. intros [|a [|b [|c l]]].
  - exact H0.
  - apply H1.
  - apply H2.
  - apply H3, IH.
Qed.

(** Decoding the encoding of a byte sequence gives the sequence back. *)
Lemma decode_encode bs : Buffer_from_base64 (toString_base64 bs) = bs.
Proof.
  unfold Buffer_from_base64. induction bs as [|a|a b|a b c l IH] using list_ind3.
  - reflexivity.
  - cbn [toString_base64].
    rewrite !sextets_b64char by auto using enc1_lt, enc2_lt.
    rewrite sextets_pad. cbn [pack]. now rewrite dec1_enc.
  - cbn [toString_base64].
    rewrite !sextets_b64char by auto using enc1_lt, enc2_lt, enc3_lt.
    rewrite sextets_pad. cbn [pack]. now rewrite dec1_enc, dec2_enc.
  - cbn [toString_base64].
    rewrite !sextets_b64char by auto using enc1_lt, enc2_lt, enc3_lt, enc4_lt.
    cbn [pack]. now rewrite dec1_enc, dec2_enc, dec3_enc, IH.
Qed.

(** The encoding of a non-empty sequence starts with an alphabet
    character: it is neither empty nor blank. *)
Lemma encode_head bs :
  bs <> [] -> exists v s, (v < 64)%N /\ toString_base64 bs = String (b64char v) s.
Proof.
  destruct bs as [|a [|b [|c l]]]; intros H; [congruence| | |];
    cbn [toString_base64]; eexists (enc1 a), _; (split; [apply enc1_lt|reflexivity]).
Qed.

(** The decoder reads a string as it reads the string without its
    characters outside the alphabet. *)
Lemma sextets_sift s : sextets (sift s) = sextets s.
Proof.
  induction s as [|c s IH]; [reflexivity|]. cbn [sift]. unfold is_noise.
  destruct (unbase64 c) as [v|] eqn:Hc.
  - cbn [sextets]. now rewrite Hc, IH.
  - destruct (Ascii.eqb c pad) eqn:Hp; cbn [negb sextets]; rewrite Hp, ?Hc;
      [reflexivity|exact IH].
Qed.

(** From an encoding with characters outside the alphabet inserted, the
    decoder reads the encoded bytes. *)
Lemma decode_sifted bs s : sift s = toString_base64 bs -> Buffer_from_base64 s = bs.
Proof.
  intros H. unfold Buffer_from_base64. rewrite <- sextets_sift, H.
  apply decode_encode.
Qed.

End Base64Facts.

(** ** The data-URL stripper *)

Section StripFacts.

Context {RT : Runtime}.
Import JS JSFacts.

(** The stripper returns, and touches nothing but the console. *)
Lemma strip_returns o w :
  exists b w1 ls,
    stripDataUrlPrefixAndGetBase64 o w = (Returned b, w1)
    /\ w_fs w1 = w_fs w /\ w_calls w1 = w_calls w
    /\ w_console w1 = w_console w ++ ls.
Proof.
  unfold stripDataUrlPrefixAndGetBase64.
  destruct (truthy o) as [s|].
  2:{ exists None, w, []. rewrite app_nil_r. repeat split. }
  cbv zeta.
  destruct (Nat.ltb 1 (length (split comma s)) && includes ";base64" (nth 0 (split comma s) EmptyString)).
  - eexists _, w, []. rewrite app_nil_r. repeat split.
  - eexists _, _, [_]. repeat split.
Qed.

(** What it returns does not depend on the world. *)
Lemma strip_value_indep o (w w' : World) :
  fst (stripDataUrlPrefixAndGetBase64 o w) = fst (stripDataUrlPrefixAndGetBase64 o w').
Proof.
  unfold stripDataUrlPrefixAndGetBase64.
  destruct (truthy o) as [s|]; [|reflexivity]. cbv zeta.
  destruct (Nat.ltb 1 (length (split comma s)) && includes ";base64" (nth 0 (split comma s) EmptyString));
    reflexivity.
Qed.

Lemma wrap_split mime payload :
  DataURL.valid_mime mime = true ->
  split comma (DataURL.wrap mime payload)
  = ("data:" +:+ mime +:+ ";base64") :: split comma payload.
Proof.
  intros Hm. unfold DataURL.valid_mime in Hm. apply negb_true_iff in Hm.
  unfold DataURL.wrap.
  replace ("data:" +:+ mime +:+ ";base64," +:+ payload)
    with (("data:" +:+ mime +:+ ";base64") +:+ String comma payload).
  2:{ rewrite !append_assoc. reflexivity. }
  apply split_app.
  apply (includes_char_app comma "data:"); [reflexivity|].
  apply includes_char_app; [exact Hm|reflexivity].
Qed.

(** A data URL is stripped to its payload. *)
Lemma strip_wrap mime payload (w : World) :
  DataURL.valid_mime mime = true ->
  stripDataUrlPrefixAndGetBase64 (Some (DataURL.wrap mime payload)) w
  = (Returned (Some payload), w).
Proof.
  intros Hm. unfold stripDataUrlPrefixAndGetBase64.
  change (truthy (Some (DataURL.wrap mime payload)))
    with (Some (DataURL.wrap mime payload)).
  cbv beta iota zeta. rewrite (wrap_split mime payload Hm).
  cbn [length nth slice1 tl].
  destruct (split comma payload) as [|p ps] eqn:E;
    [exfalso; exact (split_not_nil _ _ E)|].
  cbn [length Nat.ltb Nat.leb andb].
  rewrite <- append_assoc, includes_suffix.
  rewrite <- E. change "," with (String comma EmptyString).
  now rewrite join_split.
Qed.

End StripFacts.

Section StripTheorems.

Context {RT : Runtime}.
Import JS JSFacts.

(** C7: for every valid data URL [data:<mime>;base64,<payload>] (the media
    type has no comma), [stripDataUrlPrefixAndGetBase64] returns exactly
    [<payload>], everything after the first comma with the later commas
    put back, and writes nothing on the console. *)
Theorem strip_returns_payload (mime payload : string) (w : World) :
  DataURL.valid_mime mime = true ->
  stripDataUrlPrefixAndGetBase64 (Some (DataURL.wrap mime payload)) w
  = (Returned (Some payload), w).
Proof. apply strip_wrap. Qed.

(** C6, amended: for every non-empty string that has no comma at all, or
    that has no [;base64] marker in the segment before its first comma, the
    stripper returns the string unchanged and logs one warning.  A string
    without a comma is passed through whether it has the marker or not. *)
Theorem strip_passes_through (s : string) (w : World) :
  s <> EmptyString ->
  Str.has_char comma s = false \/ includes ";base64" (before_first comma s) = false ->
  stripDataUrlPrefixAndGetBase64 (Some s) w
  = (Returned (Some s),
     logged [WARN ("String does not appear to be a 'data:TYPE;base64,DATA' URL: "
                     +:+ substring0 50 s +:+ "...")] w).
Proof.
  intros Hs Hm. unfold stripDataUrlPrefixAndGetBase64.
  rewrite truthy_nonempty by (destruct s; [congruence|reflexivity]).
  cbv zeta. rewrite split_several, split_head.
  destruct Hm as [-> | ->]; [reflexivity|]. now rewrite andb_false_r.
Qed.

(** C3: for every byte sequence, its base64 encoding wrapped as a data URL
    is stripped to a payload that [Buffer.from(payload, 'base64')] decodes
    to the original bytes. *)
Theorem data_url_roundtrip (mime : string) (bs : list byte) (w : World) :
  DataURL.valid_mime mime = true ->
  exists payload,
    stripDataUrlPrefixAndGetBase64 (Some (DataURL.of_bytes mime bs)) w
    = (Returned (Some payload), w)
    /\ Base64.Buffer_from_base64 payload = bs.
Proof.
  intros Hm. exists (Base64.toString_base64 bs). split.
  - apply strip_wrap, Hm.
  - apply Base64Facts.decode_encode.
Qed.

End StripTheorems.

Lemma strip_returns_payload_witness :
  DataURL.valid_mime "audio/wav" = true /\
  stripDataUrlPrefixAndGetBase64 (RT := Mem.ideal)
    (Some (DataURL.wrap "audio/wav" "UklG,Rg==")) Mem.start
  = (Returned (Some "UklG,Rg=="), Mem.start).
Proof.
  split; [reflexivity|].
  apply (strip_returns_payload (RT := Mem.ideal) "audio/wav" "UklG,Rg==" Mem.start).
  reflexivity.
Defined.

Lemma strip_passes_through_witness :
  stripDataUrlPrefixAndGetBase64 (RT := Mem.ideal) (Some "x;base64") Mem.start
  = (Returned (Some "x;base64"),
     logged [WARN "String does not appear to be a 'data:TYPE;base64,DATA' URL: x;base64..."]
       Mem.start).
Proof.
  apply (strip_passes_through (RT := Mem.ideal) "x;base64" Mem.start).
  - discriminate.
  - left. reflexivity.
Defined.

(** The empty string has no comma and no [;base64] marker, and the
    stripper answers [null] for it, without a warning. *)
Lemma strip_empty_string_is_null :
  Str.has_char JS.comma EmptyString = false /\
  JS.includes ";base64" (JS.before_first JS.comma EmptyString) = false /\
  stripDataUrlPrefixAndGetBase64 (RT := Mem.ideal) (Some EmptyString) Mem.start
  = (Returned None, Mem.start) /\
  stripDataUrlPrefixAndGetBase64 (RT := Mem.ideal) (Some EmptyString) Mem.start
  <> (Returned (Some EmptyString),
      logged [WARN "String does not appear to be a 'data:TYPE;base64,DATA' URL: ..."]
        Mem.start).
Proof.
  split; [reflexivity|]. split; [reflexivity|]. split; [reflexivity|]. discriminate.
Qed.

Lemma data_url_roundtrip_witness :
  DataURL.valid_mime "audio/wav" = true /\
  exists payload,
    stripDataUrlPrefixAndGetBase64 (RT := Mem.ideal)
      (Some (DataURL.of_bytes "audio/wav" Sample.audio)) Mem.start
    = (Returned (Some payload), Mem.start)
    /\ Base64.Buffer_from_base64 payload = Sample.audio.
Proof.
  split; [reflexivity|].
  apply (data_url_roundtrip (RT := Mem.ideal) "audio/wav" Sample.audio Mem.start).
  reflexivity.
Defined.

(** ** Decoding and saving one binary field *)

Section DecodeAndSaveFacts.

Context {RT : Runtime}.
Import JS JSFacts.

(** The two ways [decodeAndSave] ends once the stripped data passed the
    emptiness test: with the file written, or with the failed write
    logged and the file unlinked. *)
Lemma decodeAndSave_run o filePath fileName w base64Data w1 :
  stripDataUrlPrefixAndGetBase64 o w = (Returned base64Data, w1) ->
  is_blank base64Data = false ->
  decodeAndSave o filePath fileName w =
    let b := default EmptyString base64Data in
    let wr := writeFile filePath (Bytes (Base64.Buffer_from_base64 b)) in
    match fs_exec wr (w_fs w1) with
    | (Returned u, s1) =>
        (Returned tt,
         {| w_fs := s1;
            w_calls := w_calls w1 ++ [(wr, Returned u)];
            w_console := w_console w1
              ++ [LOG ("Successfully saved " +:+ fileName +:+ " to " +:+ filePath)] |})
    | (Thrown e, s1) =>
        (Returned tt,
         {| w_fs := snd (fs_exec (unlink filePath) s1);
            w_calls := (w_calls w1 ++ [(wr, Thrown e)])
              ++ [(unlink filePath, fst (fs_exec (unlink filePath) s1))];
            w_console := (w_console w1
              ++ [ERROR ("Error decoding/saving " +:+ fileName
                           +:+ " (path: " +:+ filePath +:+ "):") [ErrArg e]])
              ++ [ERROR ("Problematic base64 data (first 50 chars): "
                           +:+ substring0 50 b +:+ "...") []] |})
    end.
Proof.
  intros Hs Hb. unfold decodeAndSave, bind at 1. rewrite Hs, Hb. cbv zeta.
  unfold try_catch, bind, fs_call, console_error, console_log, console_emit, ret.
  cbn [w_fs w_calls w_console].
  destruct (fs_exec _ (w_fs w1)) as [[u|e] s1]; cbn [w_fs w_calls w_console].
  - destruct u. reflexivity.
  - destruct (fs_exec (unlink filePath) s1) as [[[]|e'] s2]; reflexivity.
Qed.

End DecodeAndSaveFacts.

Section DecodeAndSaveTheorems.

Context {RT : Runtime}.
Import JS JSFacts.

(** C8: for a binary field whose stripped data passed the emptiness test,
    when the write of the decoded bytes fails, [decodeAndSave] logs the
    error, logs the first 50 characters of the base64 string, then calls
    [unlink] on the destination path; whatever [unlink] does, it returns
    normally. *)
Theorem decodeAndSave_cleans_up o filePath fileName (w : World) base64Data w1 e s1 :
  stripDataUrlPrefixAndGetBase64 o w = (Returned base64Data, w1) ->
  is_blank base64Data = false ->
  fs_exec (writeFile filePath
             (Bytes (Base64.Buffer_from_base64 (default EmptyString base64Data))))
    (w_fs w1) = (Thrown e, s1) ->
  exists w',
    decodeAndSave o filePath fileName w = (Returned tt, w')
    /\ w_console w'
       = w_console w1
           ++ [ERROR ("Error decoding/saving " +:+ fileName
                        +:+ " (path: " +:+ filePath +:+ "):") [ErrArg e];
               ERROR ("Problematic base64 data (first 50 chars): "
                        +:+ substring0 50 (default EmptyString base64Data) +:+ "...") []]
    /\ String.length (substring0 50 (default EmptyString base64Data)) <= 50
    /\ String.prefix (substring0 50 (default EmptyString base64Data))
         (default EmptyString base64Data) = true
    /\ w_calls w'
       = w_calls w1
           ++ [(writeFile filePath
                  (Bytes (Base64.Buffer_from_base64 (default EmptyString base64Data))),
                Thrown e);
               (unlink filePath, fst (fs_exec (unlink filePath) s1))]
    /\ w_fs w' = snd (fs_exec (unlink filePath) s1).
Proof.
  intros Hs Hb Hw.
  rewrite (decodeAndSave_run o filePath fileName w base64Data w1 Hs Hb).
  cbv zeta. rewrite Hw. eexists. split; [reflexivity|].
  cbn [w_console w_calls w_fs]. rewrite <- !app_assoc.
  repeat split; auto using substring0_length, substring0_prefix.
Qed.

(** C10: the decoding rejects no string, it skips the characters outside
    the alphabet.  For every string [b] that reaches the decoding, valid
    base64 or not:
    - when [b] is the encoding of the bytes [bs] with characters outside
      the alphabet inserted anywhere, the decoder reads [bs] from it;
    - [decodeAndSave] calls [writeFile] with the decoded bytes and ends in
      one of two ways: the write returned and the file is reported saved,
      or the write threw and the error branch ran, so that the error
      branch is entered through a failed write and through nothing else;
    - in the JSON block, once the decoded text parses and the write of
      [analysis.json] returns, the block ends with the file reported saved
      and without an error line: its error branch is entered through a
      failed parse or a failed write, not through the decoding. *)
Theorem decode_never_raises o filePath fileName (w : World) (b : string) w1 :
  stripDataUrlPrefixAndGetBase64 o w = (Returned (Some b), w1) ->
  is_blank (Some b) = false ->
  let decoded := Base64.Buffer_from_base64 b in
  let wr := writeFile filePath (Bytes decoded) in
  (forall bs, Base64.sift b = Base64.toString_base64 bs -> decoded = bs)
  /\ (exists w',
        decodeAndSave o filePath fileName w = (Returned tt, w')
        /\ ((exists s1,
               fs_exec wr (w_fs w1) = (Returned tt, s1)
               /\ w_fs w' = s1
               /\ w_calls w' = w_calls w1 ++ [(wr, Returned tt)]
               /\ w_console w'
                  = w_console w1
                      ++ [LOG ("Successfully saved " +:+ fileName +:+ " to " +:+ filePath)])
            \/ (exists e s1,
                  fs_exec wr (w_fs w1) = (Thrown e, s1)
                  /\ w_calls w'
                     = w_calls w1
                         ++ [(wr, Thrown e);
                             (unlink filePath, fst (fs_exec (unlink filePath) s1))]
                  /\ w_console w'
                     = w_console w1
                         ++ [ERROR ("Error decoding/saving " +:+ fileName
                                      +:+ " (path: " +:+ filePath +:+ "):") [ErrArg e];
                             ERROR ("Problematic base64 data (first 50 chars): "
                                      +:+ substring0 50 b +:+ "...") []])))
  /\ (forall (bundle : MusicAnalysisOutput) outputDir analyzer_result
             (w0 w2 : World) v s1,
        bundle !! "analyzer_result" = Some analyzer_result ->
        stripDataUrlPrefixAndGetBase64 (Some analyzer_result) w0
        = (Returned (Some b), w2) ->
        JSON_parse (toString_utf8 decoded) = Returned v ->
        fs_exec (writeFile (path_join outputDir "analysis.json")
                   (Text (JSON_stringify v))) (w_fs w2) = (Returned tt, s1) ->
        processAnalyzerResult bundle outputDir w0
        = (Returned tt,
           {| w_fs := s1;
              w_calls := w_calls w2
                ++ [(writeFile (path_join outputDir "analysis.json")
                       (Text (JSON_stringify v)), Returned tt)];
              w_console := w_console w2
                ++ [LOG ("Successfully saved analysis.json to "
                           +:+ path_join outputDir "analysis.json")] |})).
Proof.
  intros Hs Hb decoded wr. split; [|split].
  - intros bs H. now apply Base64Facts.decode_sifted.
  - rewrite (decodeAndSave_run o filePath fileName w (Some b) w1 Hs Hb).
    cbv zeta. cbn [from_option id]. fold decoded. fold wr.
    destruct (fs_exec wr (w_fs w1)) as [[[]|e] s1].
    + eexists. split; [reflexivity|]. left. exists s1. repeat split.
    + eexists. split; [reflexivity|]. right. exists e, s1.
      cbn [w_console w_calls w_fs]. rewrite <- !app_assoc. repeat split.
  - intros bundle outputDir a w0 w2 v s1 Hk Hs0 Hp Hw.
    assert (Hne : truthy (Some b) = Some b).
    { destruct b; [discriminate Hb|reflexivity]. }
    assert (Ha : truthy (Some a) = Some a).
    { destruct a; [discriminate Hs0|reflexivity]. }
    unfold processAnalyzerResult. rewrite Hk, Ha. cbv zeta.
    unfold bind at 1. rewrite Hs0, Hne.
    unfold try_catch, bind, of_outcome, fs_call, console_log, console_emit.
    fold decoded. rewrite Hp. cbn [w_fs w_calls w_console]. rewrite Hw.
    reflexivity.
Qed.

End DecodeAndSaveTheorems.

Lemma decodeAndSave_cleans_up_witness :
  exists w',
    decodeAndSave (RT := Mem.read_only)
      (Some (DataURL.of_bytes "audio/wav" Sample.audio))
      "analysis_results/demucs_bass.wav" "demucs_bass.wav" Mem.start_read_only
    = (Returned tt, w')
    /\ w_console w'
       = [ERROR "Error decoding/saving demucs_bass.wav (path: analysis_results/demucs_bass.wav):"
            [ErrArg (SystemError "EACCES")];
          ERROR "Problematic base64 data (first 50 chars): UklGRg==..." []]
    /\ w_calls w'
       = [(writeFile "analysis_results/demucs_bass.wav" (Bytes Sample.audio),
           Thrown (SystemError "EACCES"));
          (unlink "analysis_results/demucs_bass.wav", Thrown (SystemError "EACCES"))].
Proof.
  destruct (decodeAndSave_cleans_up (RT := Mem.read_only)
              (Some (DataURL.of_bytes "audio/wav" Sample.audio))
              "analysis_results/demucs_bass.wav" "demucs_bass.wav" Mem.start_read_only
              (Some "UklGRg==") Mem.start_read_only (SystemError "EACCES") Mem.empty
              eq_refl eq_refl eq_refl)
    as (w' & H1 & H2 & _ & _ & H3 & _).
  exists w'. split; [exact H1|]. split; [exact H2|exact H3].
Defined.

Lemma decode_never_raises_witness :
  Base64.valid_base64 "bnVs!bA==" = false /\
  Base64.Buffer_from_base64 "bnVs!bA==" = bytes_of_string "null" /\
  (exists w',
     decodeAndSave (RT := Mem.ideal) (Some "bnVs!bA==")
       "analysis_results/demucs_bass.wav" "demucs_bass.wav" Mem.start
     = (Returned tt, w')
     /\ w_calls w'
        = [(writeFile "analysis_results/demucs_bass.wav" (Bytes (bytes_of_string "null")),
            Returned tt)]) /\
  exists w',
    processAnalyzerResult (RT := Mem.ideal)
      (Sample.bundle (DataURL.wrap "application/json" "bnVs!bA==")) OUTPUT_DIRECTORY
      Mem.start
    = (Returned tt, w')
    /\ w_calls w' = [(writeFile "analysis_results/analysis.json" (Text "null"), Returned tt)]
    /\ w_console w'
       = [LOG "Successfully saved analysis.json to analysis_results/analysis.json"].
Proof.
  split; [reflexivity|].
  destruct (decode_never_raises (RT := Mem.ideal) (Some "bnVs!bA==")
              "analysis_results/demucs_bass.wav" "demucs_bass.wav" Mem.start
              "bnVs!bA=="
              (logged [WARN "String does not appear to be a 'data:TYPE;base64,DATA' URL: bnVs!bA==..."]
                 Mem.start)
              eq_refl eq_refl)
    as (Hd & (w' & H1 & H2) & Hj).
  pose proof (Hd (bytes_of_string "null") eq_refl) as Hbytes.
  split; [exact Hbytes|]. split.
  - exists w'. split; [exact H1|].
    destruct H2 as [(s1 & _ & _ & H2 & _)|(e & s1 & H2 & _)].
    + rewrite H2, Hbytes. reflexivity.
    + discriminate H2.
  - eexists. split.
    + apply (Hj (Sample.bundle (DataURL.wrap "application/json" "bnVs!bA=="))
                OUTPUT_DIRECTORY (DataURL.wrap "application/json" "bnVs!bA==")
                Mem.start Mem.start Mem.JNull
                (Mem.exec (fun _ => false)
                   (writeFile "analysis_results/analysis.json" (Text "null")) Mem.empty).2);
        reflexivity.
    + split; reflexivity.
Defined.

(** ** The requester *)

Section RequesterTheorems.

Context {RT : Runtime}.
Import JS JSFacts.

(** C5: [fetchMusicAnalysis] returns for every input and every behaviour
    of the network, and makes no call on the file system.  When [fetch]
    throws it returns [null]; on a response that is not [ok] it reads the
    body with [response.text()] and returns [null], with the status and
    the body logged (or, when reading the body throws, with that error
    logged); when [response.json()] throws, or gives [null], whose
    [status] cannot be read, it returns [null]; otherwise it returns the
    parsed data. *)
Theorem fetchMusicAnalysis_never_throws (musicInputUrl : string)
    (visualize sonify : bool) (w : World) :
  let init :=
    {| Http.method := "POST";
       Http.headers := [("Content-Type", "application/json")];
       Http.body := {| Http.music_input := musicInputUrl;
                       Http.visualize := visualize;
                       Http.sonify := sonify |} |} in
  let start := LOG ("Fetching analysis for: " +:+ musicInputUrl) in
  let caught e := ERROR "Error fetching music analysis:" [ErrArg e] in
  exists r w',
    fetchMusicAnalysis musicInputUrl visualize sonify w = (Returned r, w')
    /\ w_fs w' = w_fs w /\ w_calls w' = w_calls w
    /\ match fetch API_URL init with
       | Thrown e =>
           r = None /\ w_console w' = w_console w ++ [start; caught e]
       | Returned response =>
           if Http.ok response then
             match Http.json response with
             | Thrown e =>
                 r = None /\ w_console w' = w_console w ++ [start; caught e]
             | Returned None =>
                 r = None
                 /\ exists e,
                      w_console w'
                      = w_console w
                          ++ [start; LOG "Successfully fetched analysis data."; caught e]
             | Returned (Some data) =>
                 r = Some data
                 /\ exists advisory,
                      w_console w'
                      = w_console w
                          ++ start :: LOG "Successfully fetched analysis data." :: advisory
             end
           else
             match Http.text response with
             | Thrown e =>
                 r = None /\ w_console w' = w_console w ++ [start; caught e]
             | Returned errorBody =>
                 r = None
                 /\ w_console w'
                    = w_console w
                        ++ [start;
                            ERROR ("API request failed: " +:+ pretty (Http.status response)
                                     +:+ " " +:+ Http.statusText response)
                              [StrArg errorBody]]
             end
       end.
Proof.
  intros init start caught.
  unfold fetchMusicAnalysis, try_catch, bind, of_outcome, console_log,
    console_warn, console_error, console_emit, ret.
  cbv zeta. fold init. cbn [w_fs w_calls w_console].
  destruct (fetch API_URL init) as [response|e]; [|ran].
  destruct (Http.ok response); cbn [negb].
  - destruct (Http.json response) as [[data|]|e]; [|ran; eexists; reflexivity|ran].
    cbn [property_of]. unfold ret.
    destruct (truthy (status data)) as [st|]; [|ran; exists []; reflexivity].
    destruct (negb (st =? "succeeded")%string); [|ran; exists []; reflexivity].
    cbn [w_fs w_calls w_console].
    destruct (truthy (error data)) as [err|]; ran; eexists; reflexivity.
  - destruct (Http.text response) as [errorBody|e]; ran.
Qed.

End RequesterTheorems.

(** HTTP 500 with the body [internal error]: the requester returns [null]
    and logs the status and the body. *)
Example fetchMusicAnalysis_http_500 :
  fetchMusicAnalysis (RT := Mem.ideal) "https://example.org/a.mp3" true true Mem.start
  = (Returned None,
     logged [LOG "Fetching analysis for: https://example.org/a.mp3";
             ERROR "API request failed: 500 Internal Server Error"
               [StrArg "internal error"]] Mem.start).
Proof. reflexivity. Qed.

(** With the server answering HTTP 500 the run ends normally and makes no
    call on the file system. *)
Example main_http_500 :
  let r := main (RT := Mem.ideal) None Mem.start in
  fst r = Returned tt /\ w_calls (snd r) = [] /\ w_fs (snd r) = Mem.empty.
Proof. repeat split. Qed.

(** ** Persisting: the response without output *)

Section NoOutput.

Context {RT : Runtime}.
Import JS JSFacts.

(** C9: for every response whose [output] is absent,
    [processAnalysisResults] logs the error (and the API error when there
    is one) and returns: it makes no call on the file system, so no
    directory is created and no file is written. *)
Theorem no_output_no_persistence (apiResponse : ApiPredictionResponse)
    (outputDir : string) (w : World) :
  output apiResponse = None ->
  exists w',
    processAnalysisResults apiResponse outputDir w = (Returned tt, w')
    /\ w_fs w' = w_fs w
    /\ w_calls w' = w_calls w
    /\ w_console w'
       = w_console w
           ++ ERROR ("No " +:+ dquote +:+ "output" +:+ dquote
                       +:+ " data found. Cannot process.") []
              :: match truthy (error apiResponse) with
                 | Some err => [ERROR ("API Error was: " +:+ err) []]
                 | None => []
                 end.
Proof.
  intros Ho. unfold processAnalysisResults. rewrite Ho.
  unfold bind, console_error, console_emit, ret.
  destruct (truthy (error apiResponse)) as [err|];
    (eexists; split; [reflexivity|]; cbn [w_fs w_calls w_console];
     rewrite <- ?app_assoc; repeat split).
Qed.

End NoOutput.

Lemma no_output_no_persistence_witness :
  exists w',
    processAnalysisResults (RT := Mem.ideal)
      {| output := None; logs := None; status := Some "failed";
         error := Some "model crashed" |}
      OUTPUT_DIRECTORY Mem.start
    = (Returned tt, w')
    /\ w_fs w' = Mem.empty
    /\ w_calls w' = [].
Proof.
  destruct (no_output_no_persistence (RT := Mem.ideal)
              {| output := None; logs := None; status := Some "failed";
                 error := Some "model crashed" |}
              OUTPUT_DIRECTORY Mem.start eq_refl)
    as (w' & H1 & H2 & H3 & _).
  exists w'. split; [exact H1|]. split; [exact H2|exact H3].
Defined.

(** ** Persisting: every block returns *)

Section Isolation.

Context {RT : Runtime}.
Import JS JSFacts.

Lemma attempted_incl cs cs' ls ls' filePath fileName b :
  attempted cs ls filePath fileName b ->
  incl cs cs' -> incl ls ls' ->
  attempted cs' ls' filePath fileName b.
Proof.
  intros (r & Hin & Herr) Hcs Hls. exists r. split; [exact (Hcs _ Hin)|].
  intros e He. exact (Hls _ (Herr e He)).
Qed.

Lemma bind_returned {A B} (m : Async A) (k : A -> Async B) w a w1 :
  m w = (Returned a, w1) -> bind m k w = k a w1.
Proof. intros H. unfold bind. now rewrite H. Qed.

Lemma bind_log {B} msg (k : unit -> Async B) (w : World) :
  bind (console_log msg) k w = k tt (logged [LOG msg] w).
Proof. reflexivity. Qed.

Lemma fs_call_returned op (w : World) :
  fst (fs_exec op (w_fs w)) = Returned tt ->
  fs_call op w
  = (Returned tt,
     {| w_fs := snd (fs_exec op (w_fs w));
        w_calls := w_calls w ++ [(op, Returned tt)];
        w_console := w_console w |}).
Proof.
  unfold fs_call. destruct (fs_exec op (w_fs w)) as [r s]. cbn [fst snd].
  now intros ->.
Qed.

(** [decodeAndSave] returns whatever the file system does.  When the
    stripped data passes the emptiness test, its first call is the write
    of the decoded bytes, and a failure of that write is on the console. *)
Lemma decodeAndSave_total o filePath fileName (w : World) :
  exists w' cs ls,
    decodeAndSave o filePath fileName w = (Returned tt, w')
    /\ w_calls w' = w_calls w ++ cs
    /\ w_console w' = w_console w ++ ls
    /\ forall b,
         fst (stripDataUrlPrefixAndGetBase64 o w) = Returned b ->
         is_blank b = false ->
         attempted cs ls filePath fileName b.
Proof.
  destruct (strip_returns o w) as (b & w1 & ls0 & Hs & Hf & Hc & Hl).
  destruct (is_blank b) eqn:Hb.
  - unfold decodeAndSave, bind. rewrite Hs, Hb.
    eexists _, [], (ls0 ++ [_]). split; [reflexivity|].
    cbn [w_calls w_console]. rewrite Hc, Hl, app_nil_r, <- app_assoc.
    repeat split. intros b' Hb'. rewrite ?Hs in Hb'. injection Hb' as <-. congruence.
  - rewrite (decodeAndSave_run o filePath fileName w b w1 Hs Hb). cbv zeta.
    destruct (fs_exec _ (w_fs w1)) as [[[]|e] s1].
    + eexists _, [_], (ls0 ++ [_]). split; [reflexivity|].
      cbn [w_calls w_console]. rewrite Hc, Hl, <- app_assoc. repeat split.
      intros b' Hb'. rewrite ?Hs in Hb'. injection Hb' as <-. intros _.
      eexists. split; [left; reflexivity|]. discriminate.
    + eexists _, [_; _], (ls0 ++ [_; _]). split; [reflexivity|].
      cbn [w_calls w_console]. rewrite Hc, Hl, <- !app_assoc. repeat split.
      intros b' Hb'. rewrite ?Hs in Hb'. injection Hb' as <-. intros _.
      eexists. split; [left; reflexivity|].
      intros e' [= <-]. apply in_or_app. right. left. reflexivity.
Qed.

(** A block that saves the field [key] when it is truthy and warns
    otherwise: the shape of the visualization block and of the loop
    body. *)
Lemma field_block_total (output : MusicAnalysisOutput) key filePath fileName msg
    (w : World) :
  exists w' cs ls,
    match truthy (output !! key) with
    | Some u => decodeAndSave (Some u) filePath fileName
    | None => console_warn msg
    end w = (Returned tt, w')
    /\ w_calls w' = w_calls w ++ cs
    /\ w_console w' = w_console w ++ ls
    /\ forall url b,
         output !! key = Some url ->
         fst (stripDataUrlPrefixAndGetBase64 (Some url) w) = Returned b ->
         is_blank b = false ->
         attempted cs ls filePath fileName b.
Proof.
  destruct (truthy (output !! key)) as [u|] eqn:Ht.
  - apply truthy_Some in Ht as [Hk _].
    destruct (decodeAndSave_total (Some u) filePath fileName w)
      as (w' & cs & ls & Hr & Hc & Hl & Ha).
    exists w', cs, ls. repeat split; try assumption.
    intros url b Hu. rewrite Hk in Hu. injection Hu as <-. apply Ha.
  - eexists _, [], [_]. split; [reflexivity|].
    cbn [w_calls w_console]. rewrite app_nil_r. repeat split.
    intros url b Hu Hs Hb. rewrite Hu in Ht. cbn [truthy] in Ht.
    destruct (is_empty url) eqn:He; [|discriminate].
    apply is_empty_true in He. subst url.
    cbn in Hs. injection Hs as <-. discriminate Hb.
Qed.

Lemma processVisualization_total (output : MusicAnalysisOutput) outputDir (w : World) :
  exists w' cs ls,
    processVisualization output outputDir w = (Returned tt, w')
    /\ w_calls w' = w_calls w ++ cs
    /\ w_console w' = w_console w ++ ls
    /\ forall url b,
         output !! "visualization" = Some url ->
         fst (stripDataUrlPrefixAndGetBase64 (Some url) w) = Returned b ->
         is_blank b = false ->
         attempted cs ls (path_join outputDir "visualization.png") "visualization.png" b.
Proof. apply field_block_total. Qed.

Lemma processAudioKey_total (output : MusicAnalysisOutput) outputDir key (w : World) :
  exists w' cs ls,
    processAudioKey output outputDir key w = (Returned tt, w')
    /\ w_calls w' = w_calls w ++ cs
    /\ w_console w' = w_console w ++ ls
    /\ forall url b,
         output !! key = Some url ->
         fst (stripDataUrlPrefixAndGetBase64 (Some url) w) = Returned b ->
         is_blank b = false ->
         attempted cs ls (path_join outputDir (audioFileName key)) (audioFileName key) b.
Proof. apply field_block_total. Qed.

(** The loop runs its body for every key, whatever happened for the keys
    before. *)
Lemma audio_loop_total (output : MusicAnalysisOutput) outputDir keys (w : World) :
  exists w' cs ls,
    for_of keys (processAudioKey output outputDir) w = (Returned tt, w')
    /\ w_calls w' = w_calls w ++ cs
    /\ w_console w' = w_console w ++ ls
    /\ forall key url b,
         In key keys ->
         output !! key = Some url ->
         fst (stripDataUrlPrefixAndGetBase64 (Some url) w) = Returned b ->
         is_blank b = false ->
         attempted cs ls (path_join outputDir (audioFileName key)) (audioFileName key) b.
Proof.
  revert w. induction keys as [|k keys IH]; intros w.
  - exists w, [], []. rewrite !app_nil_r. repeat split. intros ? ? ? [].
  - destruct (processAudioKey_total output outputDir k w)
      as (w1 & cs1 & ls1 & Hr1 & Hc1 & Hl1 & Ha1).
    destruct (IH w1) as (w2 & cs2 & ls2 & Hr2 & Hc2 & Hl2 & Ha2).
    exists w2, (cs1 ++ cs2), (ls1 ++ ls2).
    cbn [for_of]. rewrite (bind_returned _ _ _ _ _ Hr1), Hr2.
    rewrite Hc2, Hc1, Hl2, Hl1, <- !app_assoc. repeat split.
    intros key url b [<-|Hin] Hu Hs Hb.
    + apply (attempted_incl cs1 _ ls1); [now apply (Ha1 url b)| |];
        apply incl_appl, incl_refl.
    + apply (attempted_incl cs2 _ ls2); [| apply incl_appr, incl_refl ..].
      apply (Ha2 key url b Hin Hu); [|exact Hb].
      now rewrite (strip_value_indep _ w1 w).
Qed.

Lemma json_handled_incl cs cs' ls ls' outputDir b :
  json_handled cs ls outputDir b -> incl cs cs' -> incl ls ls' ->
  json_handled cs' ls' outputDir b.
Proof.
  unfold json_handled. cbv zeta. intros H Hcs Hls.
  destruct (JSON_parse _) as [v|e].
  - destruct H as (r & Hin & Herr). exists r. split; [exact (Hcs _ Hin)|].
    intros e He. destruct (Herr e He) as [H1 H2].
    split; [exact (Hls _ H1)|exact (Hcs _ H2)].
  - destruct H as [H1 H2]. split; [exact (Hls _ H1)|exact (Hcs _ H2)].
Qed.

(** The JSON block returns when its diagnostic file can be written, with
    its failure, if any, caught and diagnosed. *)
Lemma processAnalyzerResult_total (output : MusicAnalysisOutput) outputDir (w : World) :
  (forall d s,
      fst (fs_exec
             (writeFile (path_join outputDir "_error_analyzer_result_content.txt") d) s)
      = Returned tt) ->
  exists w' cs ls,
    processAnalyzerResult output outputDir w = (Returned tt, w')
    /\ w_calls w' = w_calls w ++ cs
    /\ w_console w' = w_console w ++ ls
    /\ forall a b,
         output !! "analyzer_result" = Some a ->
         fst (stripDataUrlPrefixAndGetBase64 (Some a) w) = Returned (Some b) ->
         b <> EmptyString ->
         json_handled cs ls outputDir b.
Proof.
  intros Hdiag. unfold processAnalyzerResult.
  destruct (truthy (output !! "analyzer_result")) as [a|] eqn:Ht.
  2:{ eexists _, [], [_]. split; [reflexivity|].
      cbn [w_calls w_console]. rewrite app_nil_r. repeat split.
      intros a b Ha Hs _. rewrite Ha in Ht. cbn [truthy] in Ht.
      destruct (is_empty a) eqn:He; [|discriminate].
      apply is_empty_true in He. subst a. discriminate Hs. }
  apply truthy_Some in Ht as [Hk _]. cbv zeta.
  destruct (strip_returns (Some a) w) as (b0 & w1 & ls0 & Hs & Hf & Hc & Hl).
  rewrite (bind_returned _ _ _ _ _ Hs).
  destruct (truthy b0) as [b64|] eqn:Hb.
  2:{ eexists _, [], (ls0 ++ [_]). split; [reflexivity|].
      cbn [w_calls w_console]. rewrite Hc, Hl, app_nil_r, <- app_assoc.
      repeat split.
      intros a' b Ha Hs' Hne. rewrite Hk in Ha. injection Ha as <-.
      rewrite Hs in Hs'. injection Hs' as ->. cbn [truthy] in Hb.
      destruct b; [congruence|discriminate Hb]. }
  apply truthy_Some in Hb as [-> _].
  assert (Hsame : forall a' b,
             output !! "analyzer_result" = Some a' ->
             fst (stripDataUrlPrefixAndGetBase64 (Some a') w) = Returned (Some b) ->
             b = b64).
  { intros a' b Ha Hs'. rewrite Hk in Ha. injection Ha as <-.
    rewrite Hs in Hs'. now injection Hs'. }
  unfold try_catch, bind, of_outcome, fs_call, console_error, console_log,
    console_emit. cbn [w_fs w_calls w_console].
  destruct (JSON_parse _) as [v|e] eqn:Hp.
  - destruct (fs_exec _ (w_fs w1)) as [[[]|e] s1]; cbn [w_fs w_calls w_console].
    + eexists _, [_], (ls0 ++ [_]). split; [reflexivity|].
      cbn [w_calls w_console]. rewrite Hc, Hl, <- !app_assoc. repeat split.
      intros a' b Ha Hs' _. rewrite (Hsame a' b Ha Hs').
      unfold json_handled. cbv zeta. rewrite Hp.
      eexists. split; [left; reflexivity|]. discriminate.
    + write_succeeds Hdiag s2.
      eexists _, [_; _], (ls0 ++ [_; _; _]). split; [reflexivity|].
      cbn [w_calls w_console]. rewrite Hc, Hl, <- !app_assoc. repeat split.
      intros a' b Ha Hs' _. rewrite (Hsame a' b Ha Hs').
      unfold json_handled. cbv zeta. rewrite Hp.
      eexists. split; [left; reflexivity|].
      intros e' [= <-]. split.
      * apply in_or_app. right. left. reflexivity.
      * right. left. reflexivity.
  - write_succeeds Hdiag s2.
    eexists _, [_], (ls0 ++ [_; _; _]). split; [reflexivity|].
    cbn [w_calls w_console]. rewrite Hc, Hl, <- !app_assoc. repeat split.
    intros a' b Ha Hs' _. rewrite (Hsame a' b Ha Hs').
    unfold json_handled. cbv zeta. rewrite Hp. split.
    + apply in_or_app. right. left. reflexivity.
    + left. reflexivity.
Qed.

(** C1, amended: when the output directory can be created and the
    diagnostic file of the JSON field can be written,
    [processAnalysisResults] returns for every bundle, whatever else the
    file system does.  Every failure in the processing of a field is caught
    and logged, and it stops nothing: a failed parse or write of the JSON
    field is logged and diagnosed; for every binary field of the catalog
    whose stripped data passes the emptiness test the write of its decoded
    bytes is among the calls of the run, logged when it failed; and the last
    line on the console is the one that reports the end of the
    processing. *)
Theorem persist_isolates_field_failures (apiResponse : ApiPredictionResponse)
    (bundle : MusicAnalysisOutput) (outputDir : string) (w : World) :
  output apiResponse = Some bundle ->
  fst (fs_exec (mkdir outputDir true) (w_fs w)) = Returned tt ->
  (forall d s,
      fst (fs_exec
             (writeFile (path_join outputDir "_error_analyzer_result_content.txt") d) s)
      = Returned tt) ->
  exists w' cs ls,
    processAnalysisResults apiResponse outputDir w = (Returned tt, w')
    /\ w_calls w' = w_calls w ++ cs
    /\ w_console w' = w_console w ++ ls
    /\ last ls = Some (LOG "--- Finished processing all output fields ---")
    /\ (forall a b,
          bundle !! "analyzer_result" = Some a ->
          fst (stripDataUrlPrefixAndGetBase64 (Some a) w) = Returned (Some b) ->
          b <> EmptyString ->
          json_handled cs ls outputDir b)
    /\ forall key fileName url b,
         In (key, fileName) binaryArtifacts ->
         bundle !! key = Some url ->
         fst (stripDataUrlPrefixAndGetBase64 (Some url) w) = Returned b ->
         is_blank b = false ->
         attempted cs ls (path_join outputDir fileName) fileName b.
Proof.
  intros Ho Hmk Hdiag. unfold processAnalysisResults. rewrite Ho.
  rewrite (bind_returned _ _ _ _ _ (fs_call_returned _ w Hmk)), bind_log.
  match goal with |- context [bind _ _ ?w0] => set (w1 := w0) end.
  destruct (processAnalyzerResult_total bundle outputDir w1 Hdiag)
    as (w2 & cs2 & ls2 & Hr2 & Hc2 & Hl2 & Ha2).
  rewrite (bind_returned _ _ _ _ _ Hr2).
  destruct (processVisualization_total bundle outputDir w2)
    as (w3 & cs3 & ls3 & Hr3 & Hc3 & Hl3 & Ha3).
  rewrite (bind_returned _ _ _ _ _ Hr3), bind_log.
  match goal with |- context [bind _ _ ?w0] => set (w4 := w0) end.
  destruct (audio_loop_total bundle outputDir audioFileKeys w4)
    as (w5 & cs5 & ls5 & Hr5 & Hc5 & Hl5 & Ha5).
  rewrite (bind_returned _ _ _ _ _ Hr5).
  unfold console_log, console_emit.
  eexists _, ([_] ++ cs2 ++ cs3 ++ cs5),
    ([_] ++ ls2 ++ ls3 ++ [_] ++ ls5 ++ [_]).
  split; [reflexivity|]. cbn [w_calls w_console].
  rewrite Hc5, Hl5. subst w4. cbn [logged w_calls w_console].
  rewrite Hc3, Hl3, Hc2, Hl2. cbn [w1 logged w_calls w_console].
  split; [now rewrite <- !app_assoc|]. split; [now rewrite <- !app_assoc|].
  split.
  { rewrite !app_assoc. apply last_snoc. }
  split.
  - intros a b Ha Hs Hne. apply (json_handled_incl cs2 _ ls2).
    + apply (Ha2 a b Ha); [|exact Hne]. now rewrite (strip_value_indep _ w1 w).
    + intros x Hx. rewrite !in_app_iff. tauto.
    + intros x Hx. rewrite !in_app_iff. tauto.
  - intros key fileName url b [[= <- <-]|Hin] Hu Hs Hb.
    + apply (attempted_incl cs3 _ ls3).
      * apply (Ha3 url b Hu); [|exact Hb]. now rewrite (strip_value_indep _ w2 w).
      * intros x Hx. rewrite !in_app_iff. tauto.
      * intros x Hx. rewrite !in_app_iff. tauto.
    + apply in_map_iff in Hin as (k & [= <- <-] & Hk).
      apply (attempted_incl cs5 _ ls5).
      * apply (Ha5 k url b Hk Hu); [|exact Hb].
        match goal with
        | |- fst (_ _ ?w0) = _ => now rewrite (strip_value_indep _ w0 w)
        end.
      * intros x Hx. rewrite !in_app_iff. tauto.
      * intros x Hx. rewrite !in_app_iff. tauto.
Qed.

End Isolation.

Lemma persist_isolates_field_failures_witness :
  exists w' cs ls,
    processAnalysisResults (RT := Mem.no_audio) (Sample.response (Some Sample.full))
      OUTPUT_DIRECTORY Mem.start_no_audio
    = (Returned tt, w')
    /\ w_calls w' = cs
    /\ w_console w' = ls
    /\ last ls = Some (LOG "--- Finished processing all output fields ---")
    /\ forall key fileName url b,
         In (key, fileName) binaryArtifacts ->
         Sample.full !! key = Some url ->
         fst (stripDataUrlPrefixAndGetBase64 (Some url) Mem.start_no_audio) = Returned b ->
         is_blank b = false ->
         attempted cs ls (path_join (Runtime := Mem.no_audio) OUTPUT_DIRECTORY fileName)
           fileName b.
Proof.
  destruct (persist_isolates_field_failures (RT := Mem.no_audio)
              (Sample.response (Some Sample.full)) Sample.full
              OUTPUT_DIRECTORY Mem.start_no_audio eq_refl eq_refl
              (fun d s => eq_refl))
    as (w' & cs & ls & H1 & H2 & H3 & H4 & _ & H5).
  exists w', cs, ls. repeat split; assumption.
Defined.

(** The write of [demucs_bass.wav] fails: the failure is followed by the
    [unlink] of the file, and the nine audio fields after it are written. *)
Example failed_audio_write_is_isolated :
  let r := processAnalysisResults (RT := Mem.no_audio)
             (Sample.response (Some Sample.full)) OUTPUT_DIRECTORY Mem.start_no_audio in
  fst r = Returned tt
  /\ map (fun c => (match fst c with
                    | mkdir p _ => p | writeFile p _ => p | unlink p => p
                    end, returned (snd c))) (w_calls (snd r))
     = [("analysis_results", true);
        ("analysis_results/analysis.json", true);
        ("analysis_results/visualization.png", true);
        ("analysis_results/demucs_bass.wav", false);
        ("analysis_results/demucs_bass.wav", false);
        ("analysis_results/demucs_drums.wav", true);
        ("analysis_results/demucs_guitar.wav", true);
        ("analysis_results/demucs_other.wav", true);
        ("analysis_results/demucs_piano.wav", true);
        ("analysis_results/demucs_vocals.wav", true);
        ("analysis_results/mdx_instrumental.wav", true);
        ("analysis_results/mdx_other.wav", true);
        ("analysis_results/mdx_vocals.wav", true);
        ("analysis_results/sonification.mp3", true)].
Proof. vm_compute. split; reflexivity. Qed.

(** On a read-only file system [fs.mkdir] throws, outside every [try]:
    [processAnalysisResults] throws. *)
Lemma persist_throws_when_mkdir_fails :
  fst (processAnalysisResults (RT := Mem.read_only) (Sample.response (Some Sample.full))
         OUTPUT_DIRECTORY Mem.start_read_only)
  = Thrown (SystemError "EACCES").
Proof. reflexivity. Qed.

(** When neither [analysis.json] nor the diagnostic file can be written,
    the second write of the diagnostic file throws out of the handler: no
    binary field is processed. *)
Example diagnostic_write_failure_escapes :
  let r := processAnalysisResults (RT := Mem.no_json)
             (Sample.response (Some Sample.full)) OUTPUT_DIRECTORY Mem.start_no_json in
  fst r = Thrown (SystemError "EACCES")
  /\ map (fun c => (match fst c with
                    | mkdir p _ => p | writeFile p _ => p | unlink p => p
                    end, returned (snd c))) (w_calls (snd r))
     = [("analysis_results", true);
        ("analysis_results/analysis.json", false);
        ("analysis_results/_error_analyzer_result_content.txt", false);
        ("analysis_results/_error_analyzer_result_content.txt", false)].
Proof. vm_compute. split; reflexivity. Qed.

(** ** Persisting on a file system whose writes succeed *)

Section Persisted.

Context {RT : Runtime}.
Import JS JSFacts.

Hypothesis writes_succeed :
  forall p d s, fst (fs_exec (writeFile p d) s) = Returned tt.

Lemma is_space_b64char v : (v < 64)%N -> is_space (Base64.b64char v) = false.
Proof.
  intros Hv. apply negb_true_iff. revert v Hv.
  apply (Base64Facts.forall_sextet (fun v => negb (is_space (Base64.b64char v)))).
  vm_compute. reflexivity.
Qed.

Lemma trim_not_empty c s : is_space c = false -> is_empty (trim (String c s)) = false.
Proof.
  intros Hc. unfold trim. cbn [trimStart]. rewrite Hc. cbn [trimEnd]. rewrite Hc.
  destruct (trimEnd s); reflexivity.
Qed.

(** The encoding of a non-empty byte sequence passes the emptiness test. *)
Lemma is_blank_encoding bs :
  bs <> [] -> is_blank (Some (Base64.toString_base64 bs)) = false.
Proof.
  intros Hbs. destruct (Base64Facts.encode_head bs Hbs) as (v & s & Hv & ->).
  unfold is_blank. cbn [truthy is_empty].
  apply trim_not_empty, is_space_b64char, Hv.
Qed.

Lemma decodeAndSave_saves mime bs filePath fileName (w : World) :
  DataURL.valid_mime mime = true -> bs <> [] ->
  exists w',
    decodeAndSave (Some (DataURL.of_bytes mime bs)) filePath fileName w = (Returned tt, w')
    /\ w_calls w' = w_calls w ++ [(writeFile filePath (Bytes bs), Returned tt)].
Proof.
  intros Hm Hbs. unfold DataURL.of_bytes.
  rewrite (decodeAndSave_run _ filePath fileName w _ w
             (strip_wrap mime _ w Hm) (is_blank_encoding bs Hbs)).
  cbv zeta. cbn [from_option id]. rewrite Base64Facts.decode_encode.
  write_succeeds writes_succeed s1. eexists. split; reflexivity.
Qed.

Lemma holds_truthy (bundle : MusicAnalysisOutput) key content :
  DataURL.holds bundle key content ->
  exists mime,
    DataURL.valid_mime mime = true
    /\ truthy (bundle !! key) = Some (DataURL.of_bytes mime content).
Proof.
  intros (_ & mime & Hm & Hk). exists mime. split; [exact Hm|]. now rewrite Hk.
Qed.

(** The visualization block and the loop body write the bytes the field
    encodes. *)
Lemma field_block_saves (bundle : MusicAnalysisOutput) key content filePath fileName msg
    (w : World) :
  DataURL.holds bundle key content ->
  exists w',
    match truthy (bundle !! key) with
    | Some u => decodeAndSave (Some u) filePath fileName
    | None => console_warn msg
    end w = (Returned tt, w')
    /\ w_calls w' = w_calls w ++ [(writeFile filePath (Bytes content), Returned tt)].
Proof.
  intros H. destruct (holds_truthy _ _ _ H) as (mime & Hm & ->).
  apply decodeAndSave_saves; [exact Hm|apply H].
Qed.

Lemma audio_loop_saves (bundle : MusicAnalysisOutput) outputDir content keys (w : World) :
  (forall key, In key keys -> DataURL.holds bundle key (content key)) ->
  exists w',
    for_of keys (processAudioKey bundle outputDir) w = (Returned tt, w')
    /\ w_calls w'
       = w_calls w
           ++ map (fun key =>
                     (writeFile (path_join outputDir (audioFileName key))
                        (Bytes (content key)), Returned tt)) keys.
Proof.
  revert w. induction keys as [|k keys IH]; intros w H.
  - exists w. rewrite app_nil_r. split; reflexivity.
  - destruct (field_block_saves bundle k (content k)
                (path_join outputDir (audioFileName k)) (audioFileName k)
                (k +:+ " not found in output or is empty.") w (H k (or_introl eq_refl)))
      as (w1 & Hr1 & Hc1).
    destruct (IH w1 (fun key Hk => H key (or_intror Hk))) as (w2 & Hr2 & Hc2).
    exists w2. cbn [for_of]. rewrite (bind_returned _ _ _ _ _ Hr1), Hr2.
    split; [reflexivity|]. rewrite Hc2, Hc1, <- app_assoc. reflexivity.
Qed.

(** The JSON block on a field that encodes a parsable text. *)
Lemma processAnalyzerResult_saves (bundle : MusicAnalysisOutput) outputDir json v
    (w : World) :
  DataURL.holds bundle "analyzer_result" json ->
  JSON_parse (toString_utf8 json) = Returned v ->
  exists w',
    processAnalyzerResult bundle outputDir w = (Returned tt, w')
    /\ w_calls w'
       = w_calls w
           ++ [(writeFile (path_join outputDir "analysis.json")
                  (Text (JSON_stringify v)), Returned tt)].
Proof.
  intros H Hv. destruct (holds_truthy _ _ _ H) as (mime & Hm & Ht).
  destruct H as (Hne & _).
  unfold processAnalyzerResult. rewrite Ht. cbv zeta. unfold DataURL.of_bytes.
  rewrite (bind_returned _ _ _ _ _ (strip_wrap mime _ w Hm)).
  assert (Htr : truthy (Some (Base64.toString_base64 json))
                = Some (Base64.toString_base64 json)).
  { destruct (Base64Facts.encode_head json Hne) as (c & s & _ & ->). reflexivity. }
  rewrite Htr.
  unfold try_catch, bind, of_outcome, fs_call, console_log, console_emit.
  rewrite Base64Facts.decode_encode, Hv. cbn [w_fs w_calls w_console].
  write_succeeds writes_succeed s1. eexists. split; reflexivity.
Qed.

(** The JSON block on a field whose decoded text does not parse. *)
Lemma processAnalyzerResult_diagnoses (bundle : MusicAnalysisOutput) outputDir
    analyzer_result base64JsonData e (w : World) :
  bundle !! "analyzer_result" = Some analyzer_result ->
  fst (stripDataUrlPrefixAndGetBase64 (Some analyzer_result) w)
  = Returned (Some base64JsonData) ->
  base64JsonData <> EmptyString ->
  JSON_parse (toString_utf8 (Base64.Buffer_from_base64 base64JsonData)) = Thrown e ->
  exists w',
    processAnalyzerResult bundle outputDir w = (Returned tt, w')
    /\ w_calls w'
       = w_calls w
           ++ [(writeFile (path_join outputDir "_error_analyzer_result_content.txt")
                  (Text ("Attempted to decode this as JSON (from base64):"
                           +:+ newline +:+ newline
                           +:+ toString_utf8 (Base64.Buffer_from_base64 base64JsonData))),
                Returned tt)].
Proof.
  intros Hk Hs Hne Hp.
  assert (Ha : truthy (Some analyzer_result) = Some analyzer_result).
  { destruct analyzer_result; [discriminate Hs|reflexivity]. }
  unfold processAnalyzerResult. rewrite Hk, Ha. cbv zeta.
  destruct (strip_returns (Some analyzer_result) w) as (b & w1 & ls0 & Hr & Hf & Hc & Hl).
  rewrite Hr in Hs. cbn [fst] in Hs. injection Hs as ->.
  rewrite (bind_returned _ _ _ _ _ Hr).
  rewrite truthy_nonempty by (destruct base64JsonData; [congruence|reflexivity]).
  unfold try_catch, bind, of_outcome, fs_call, console_error, console_emit.
  rewrite Hp. cbn [w_fs w_calls w_console].
  write_succeeds writes_succeed s1. eexists. split; [reflexivity|].
  cbn [w_calls]. now rewrite Hc.
Qed.

(** The whole of [processAnalysisResults], given the calls of its JSON
    block. *)
Lemma persist_calls (apiResponse : ApiPredictionResponse) (bundle : MusicAnalysisOutput)
    outputDir content jsonCalls (w : World) :
  output apiResponse = Some bundle ->
  fst (fs_exec (mkdir outputDir true) (w_fs w)) = Returned tt ->
  (forall w1, exists w2,
      processAnalyzerResult bundle outputDir w1 = (Returned tt, w2)
      /\ w_calls w2 = w_calls w1 ++ jsonCalls) ->
  (forall key, In key ("visualization" :: audioFileKeys) ->
               DataURL.holds bundle key (content key)) ->
  exists w',
    processAnalysisResults apiResponse outputDir w = (Returned tt, w')
    /\ w_calls w'
       = w_calls w
           ++ (mkdir outputDir true, Returned tt)
              :: jsonCalls
              ++ map (fun a : string * string =>
                        (writeFile (path_join outputDir (snd a))
                           (Bytes (content (fst a))), Returned tt))
                   binaryArtifacts.
Proof.
  intros Ho Hmk Hjson Hbin. unfold processAnalysisResults. rewrite Ho.
  rewrite (bind_returned _ _ _ _ _ (fs_call_returned _ w Hmk)), bind_log.
  match goal with |- context [bind _ _ ?w0] => set (w1 := w0) end.
  destruct (Hjson w1) as (w2 & Hr2 & Hc2).
  rewrite (bind_returned _ _ _ _ _ Hr2).
  destruct (field_block_saves bundle "visualization" (content "visualization")
              (path_join outputDir "visualization.png") "visualization.png"
              "visualization not found in output." w2 (Hbin _ (or_introl eq_refl)))
    as (w3 & Hr3 & Hc3).
  unfold processVisualization at 1. cbv zeta.
  rewrite (bind_returned _ _ _ _ _ Hr3), bind_log.
  match goal with |- context [bind _ _ ?w0] => set (w4 := w0) end.
  destruct (audio_loop_saves bundle outputDir content audioFileKeys w4
              (fun key Hk => Hbin key (or_intror Hk)))
    as (w5 & Hr5 & Hc5).
  rewrite (bind_returned _ _ _ _ _ Hr5).
  eexists. split; [reflexivity|].
  cbn [console_log console_emit w_calls snd]. rewrite Hc5. subst w4.
  cbn [logged w_calls]. rewrite Hc3, Hc2. subst w1. cbn [logged w_calls].
  unfold binaryArtifacts. cbn [map fst snd]. rewrite map_map. cbn [fst snd].
  rewrite <- !app_assoc. reflexivity.
Qed.

Lemma binaryArtifacts_keys a :
  In a binaryArtifacts -> In (fst a) ("visualization" :: audioFileKeys).
Proof.
  intros [<-|H]; [left; reflexivity|right].
  apply in_map_iff in H as (k & <- & Hk). exact Hk.
Qed.

Lemma written_nonempty (bundle : MusicAnalysisOutput) outputDir content :
  (forall key, In key ("visualization" :: audioFileKeys) ->
               DataURL.holds bundle key (content key)) ->
  Forall (fun c : FsCall =>
            match fst c with
            | writeFile _ d => is_nonempty_data d = true
            | _ => False
            end)
    (map (fun a : string * string =>
            (writeFile (path_join outputDir (snd a)) (Bytes (content (fst a))),
             Returned tt))
       binaryArtifacts).
Proof.
  intros Hbin. apply Stdlib.Lists.List.Forall_forall. intros c Hc.
  apply in_map_iff in Hc as (a & <- & Ha). cbn [fst is_nonempty_data].
  destruct (Hbin _ (binaryArtifacts_keys a Ha)) as (Hne & _).
  destruct (content a.1); [congruence|reflexivity].
Qed.

(** C2, amended: on a file system where the directory can be created and
    writes succeed, for every bundle whose twelve catalogued fields hold
    valid data URLs of non-empty contents, the JSON one encoding a text
    that parses to [v], [processAnalysisResults] creates the output
    directory and then makes exactly twelve calls, all of them successful
    writes: [analysis.json] with the serialisation of [v], then the image
    and the ten audio files with the non-empty bytes their fields encode.
    The one text written is that of [analysis.json]: it is the
    serialisation of [v], so it is non-empty when that serialisation is,
    and it parses back to [v] exactly when the engine reads back what it
    serialises for [v]. *)
Theorem persist_writes_all_artifacts (apiResponse : ApiPredictionResponse)
    (bundle : MusicAnalysisOutput) (outputDir : string) (json : list byte)
    (v : JSValue) (content : string -> list byte) (w : World) :
  output apiResponse = Some bundle ->
  fst (fs_exec (mkdir outputDir true) (w_fs w)) = Returned tt ->
  DataURL.holds bundle "analyzer_result" json ->
  JSON_parse (toString_utf8 json) = Returned v ->
  (forall key, In key ("visualization" :: audioFileKeys) ->
               DataURL.holds bundle key (content key)) ->
  exists w' cs,
    processAnalysisResults apiResponse outputDir w = (Returned tt, w')
    /\ w_calls w' = w_calls w ++ (mkdir outputDir true, Returned tt) :: cs
    /\ cs = (writeFile (path_join outputDir "analysis.json")
               (Text (JSON_stringify v)), Returned tt)
            :: map (fun a : string * string =>
                      (writeFile (path_join outputDir (snd a))
                         (Bytes (content (fst a))), Returned tt))
                 [("visualization", "visualization.png");
                  ("demucs_bass", "demucs_bass.wav");
                  ("demucs_drums", "demucs_drums.wav");
                  ("demucs_guitar", "demucs_guitar.wav");
                  ("demucs_other", "demucs_other.wav");
                  ("demucs_piano", "demucs_piano.wav");
                  ("demucs_vocals", "demucs_vocals.wav");
                  ("mdx_instrumental", "mdx_instrumental.wav");
                  ("mdx_other", "mdx_other.wav");
                  ("mdx_vocals", "mdx_vocals.wav");
                  ("sonification", "sonification.mp3")]
    /\ length cs = 12
    /\ Forall (fun c : FsCall =>
                 match fst c with
                 | writeFile _ (Bytes bs) => bs <> []
                 | writeFile _ (Text text) => text = JSON_stringify v
                 | _ => False
                 end) cs
    /\ (JSON_stringify v <> EmptyString ->
        Forall (fun c : FsCall =>
                  match fst c with
                  | writeFile _ d => is_nonempty_data d = true
                  | _ => False
                  end) cs)
    /\ forall p text r,
         In (writeFile p (Text text), r) cs ->
         p = path_join outputDir "analysis.json"
         /\ text = JSON_stringify v
         /\ (JSON_parse text = Returned v <-> JSON_parse (JSON_stringify v) = Returned v).
Proof.
  intros Ho Hmk Hjson Hv Hbin.
  destruct (persist_calls apiResponse bundle outputDir content _ w Ho Hmk
              (fun w1 => processAnalyzerResult_saves bundle outputDir json v w1 Hjson Hv)
              Hbin) as (w' & Hr & Hc).
  exists w'. eexists. split; [exact Hr|]. split; [exact Hc|].
  split; [reflexivity|]. split; [reflexivity|]. split; [|split].
  - cbn [app]. constructor; [reflexivity|].
    apply Stdlib.Lists.List.Forall_forall. intros c Hin.
    apply in_map_iff in Hin as (a & <- & Ha). cbn [fst].
    apply (Hbin (fst a)), (binaryArtifacts_keys a), Ha.
  - intros Hne. cbn [app]. constructor; [|now apply (written_nonempty bundle)].
    cbn [fst is_nonempty_data]. destruct (JSON_stringify v); [congruence|reflexivity].
  - cbn [app]. intros p text r [Hin|Hin].
    + injection Hin as <- <- _. split; [reflexivity|]. split; [reflexivity|tauto].
    + apply in_map_iff in Hin as (a & Ha & _). discriminate Ha.
Qed.

(** C4, amended: on a file system where the directory can be created and
    writes succeed, for every bundle whose [analyzer_result] is stripped
    to a non-empty string that the lenient decoder turns into a text which
    is not JSON, while the ten audio fields and the image hold valid data
    URLs, [processAnalysisResults] writes the diagnostic file
    [_error_analyzer_result_content.txt] with the decoded text, writes the
    eleven other artifacts, and makes no call on the path of
    [analysis.json]. *)
Theorem persist_diagnoses_unparsable_json (apiResponse : ApiPredictionResponse)
    (bundle : MusicAnalysisOutput) (outputDir analyzer_result base64JsonData : string)
    (e : JsError) (content : string -> list byte) (w : World) :
  output apiResponse = Some bundle ->
  fst (fs_exec (mkdir outputDir true) (w_fs w)) = Returned tt ->
  bundle !! "analyzer_result" = Some analyzer_result ->
  fst (stripDataUrlPrefixAndGetBase64 (Some analyzer_result) w)
  = Returned (Some base64JsonData) ->
  base64JsonData <> EmptyString ->
  JSON_parse (toString_utf8 (Base64.Buffer_from_base64 base64JsonData)) = Thrown e ->
  (forall key, In key ("visualization" :: audioFileKeys) ->
               DataURL.holds bundle key (content key)) ->
  (forall name,
      In name ("_error_analyzer_result_content.txt" :: map snd binaryArtifacts) ->
      path_join outputDir name <> path_join outputDir "analysis.json") ->
  exists w' cs,
    processAnalysisResults apiResponse outputDir w = (Returned tt, w')
    /\ w_calls w' = w_calls w ++ (mkdir outputDir true, Returned tt) :: cs
    /\ cs = (writeFile (path_join outputDir "_error_analyzer_result_content.txt")
               (Text ("Attempted to decode this as JSON (from base64):"
                        +:+ newline +:+ newline
                        +:+ toString_utf8 (Base64.Buffer_from_base64 base64JsonData))),
             Returned tt)
            :: map (fun a : string * string =>
                      (writeFile (path_join outputDir (snd a))
                         (Bytes (content (fst a))), Returned tt))
                 [("visualization", "visualization.png");
                  ("demucs_bass", "demucs_bass.wav");
                  ("demucs_drums", "demucs_drums.wav");
                  ("demucs_guitar", "demucs_guitar.wav");
                  ("demucs_other", "demucs_other.wav");
                  ("demucs_piano", "demucs_piano.wav");
                  ("demucs_vocals", "demucs_vocals.wav");
                  ("mdx_instrumental", "mdx_instrumental.wav");
                  ("mdx_other", "mdx_other.wav");
                  ("mdx_vocals", "mdx_vocals.wav");
                  ("sonification", "sonification.mp3")]
    /\ forall d r,
         ~ In (writeFile (path_join outputDir "analysis.json") d, r)
             ((mkdir outputDir true, Returned tt) :: cs).
Proof.
  intros Ho Hmk Hk Hs Hne Hp Hbin Hpaths.
  destruct (persist_calls apiResponse bundle outputDir content _ w Ho Hmk
              (fun w1 =>
                 processAnalyzerResult_diagnoses bundle outputDir analyzer_result
                   base64JsonData e w1 Hk
                   (eq_trans (strip_value_indep _ w1 w) Hs) Hne Hp)
              Hbin) as (w' & Hr & Hc).
  exists w'. eexists. split; [exact Hr|]. split; [exact Hc|].
  split; [reflexivity|].
  intros d r [Hin|[Hin|Hin]].
  - discriminate Hin.
  - injection Hin as Hpath _. exact (Hpaths _ (or_introl eq_refl) Hpath).
  - apply in_map_iff in Hin as (a & Ha & Hin). injection Ha as Hpath _.
    apply (Hpaths (snd a)); [|exact Hpath].
    right. apply in_map_iff. exists a. split; [reflexivity|exact Hin].
Qed.

End Persisted.

(** The sample bundle holds valid data URLs under its binary fields,
    whatever its [analyzer_result] is. *)
Lemma sample_bundle_holds analyzer_result key :
  In key ("visualization" :: audioFileKeys) ->
  DataURL.holds (Sample.bundle analyzer_result) key (Sample.content key).
Proof.
  intros H. cbn [audioFileKeys In] in H.
  repeat (destruct H as [<-|H]; [split; [discriminate|];
    first [exists "image/png"; split; vm_compute; reflexivity
          |exists "audio/wav"; split; vm_compute; reflexivity]|]).
  destruct H.
Qed.

Lemma sample_full_holds_json :
  DataURL.holds Sample.full "analyzer_result" (bytes_of_string "{}").
Proof.
  split; [discriminate|]. exists "application/json". split; vm_compute; reflexivity.
Qed.

Lemma persist_writes_all_artifacts_witness :
  exists w' cs,
    processAnalysisResults (RT := Mem.ideal) (Sample.response (Some Sample.full))
      OUTPUT_DIRECTORY Mem.start
    = (Returned tt, w')
    /\ w_calls w' = (mkdir OUTPUT_DIRECTORY true, Returned tt) :: cs
    /\ length cs = 12
    /\ Forall (fun c : FsCall =>
                 match fst c with
                 | writeFile _ d => is_nonempty_data d = true
                 | _ => False
                 end) cs
    /\ forall p text r,
         In (writeFile p (Text text), r) cs ->
         p = "analysis_results/analysis.json"
         /\ text = "{}"
         /\ JSON_parse (Runtime := Mem.ideal) text = Returned Mem.JEmptyObject.
Proof.
  destruct (persist_writes_all_artifacts (RT := Mem.ideal)
              (fun p d s => eq_refl)
              (Sample.response (Some Sample.full)) Sample.full OUTPUT_DIRECTORY
              (bytes_of_string "{}") Mem.JEmptyObject Sample.content Mem.start
              eq_refl eq_refl sample_full_holds_json eq_refl
              (sample_bundle_holds _))
    as (w' & cs & H1 & H2 & _ & H3 & _ & H4 & H5).
  exists w', cs. split; [exact H1|]. split; [exact H2|]. split; [exact H3|].
  split; [apply H4; discriminate|].
  intros p text r Hin. destruct (H5 p text r Hin) as (Hp & Ht & Hb).
  split; [exact Hp|]. split; [exact Ht|]. apply Hb. reflexivity.
Defined.

(** Two runs on bundles whose twelve catalogued fields hold valid data
    URLs.  The first makes twelve writes and leaves twelve files, one for
    [analyzer_result], one for [visualization] and ten for the audio
    fields: not eleven.  In the second the JSON field encodes [1e999],
    which the engine parses to [Infinity]: the run writes [null] to
    [analysis.json], and that text parses to [null], not to the value that
    was encoded. *)
Lemma twelve_files_and_no_parse_back :
  let r := processAnalysisResults (RT := Mem.ideal)
             (Sample.response (Some Sample.full)) OUTPUT_DIRECTORY Mem.start in
  let r' := processAnalysisResults (RT := Mem.overflowing)
              (Sample.response (Some Sample.huge)) OUTPUT_DIRECTORY
              Mem.start_overflowing in
  ((forall key, In key ("analyzer_result" :: "visualization" :: audioFileKeys) ->
                exists content, DataURL.holds Sample.full key content)
   /\ fst r = Returned tt
   /\ map (fun c => (match fst c with
                     | mkdir p _ => p | writeFile p _ => p | unlink p => p
                     end, returned (snd c))) (w_calls (snd r))
      = [("analysis_results", true);
         ("analysis_results/analysis.json", true);
         ("analysis_results/visualization.png", true);
         ("analysis_results/demucs_bass.wav", true);
         ("analysis_results/demucs_drums.wav", true);
         ("analysis_results/demucs_guitar.wav", true);
         ("analysis_results/demucs_other.wav", true);
         ("analysis_results/demucs_piano.wav", true);
         ("analysis_results/demucs_vocals.wav", true);
         ("analysis_results/mdx_instrumental.wav", true);
         ("analysis_results/mdx_other.wav", true);
         ("analysis_results/mdx_vocals.wav", true);
         ("analysis_results/sonification.mp3", true)]
   /\ size (Mem.files (w_fs (snd r))) = 12
   /\ size (Mem.files (w_fs (snd r))) <> 11)
  /\ (DataURL.holds Sample.huge "analyzer_result" (bytes_of_string "1e999")
      /\ (forall key, In key ("visualization" :: audioFileKeys) ->
                      DataURL.holds Sample.huge key (Sample.content key))
      /\ JSON_parse (Runtime := Mem.overflowing)
           (toString_utf8 (Runtime := Mem.overflowing) (bytes_of_string "1e999"))
         = Returned Mem.Infinity
      /\ fst r' = Returned tt
      /\ Mem.files (w_fs (snd r')) !! "analysis_results/analysis.json"
         = Some (Text "null")
      /\ JSON_parse (Runtime := Mem.overflowing) "null" = Returned Mem.Null
      /\ JSON_parse (Runtime := Mem.overflowing) "null" <> Returned Mem.Infinity).
Proof.
  split.
  - split.
    { intros key [<-|H].
      - eexists. exact sample_full_holds_json.
      - eexists. exact (sample_bundle_holds _ key H). }
    vm_compute. repeat split. discriminate.
  - split.
    { split; [discriminate|]. exists "application/json". split; vm_compute; reflexivity. }
    split; [apply sample_bundle_holds|].
    vm_compute. repeat split. discriminate.
Qed.

Lemma persist_diagnoses_unparsable_json_witness :
  Base64.valid_base64 "bm9w*ZQ==" = false /\
  exists w' cs,
    processAnalysisResults (RT := Mem.ideal)
      (Sample.response
         (Some (Sample.bundle (DataURL.wrap "application/json" "bm9w*ZQ=="))))
      OUTPUT_DIRECTORY Mem.start
    = (Returned tt, w')
    /\ w_calls w' = (mkdir OUTPUT_DIRECTORY true, Returned tt) :: cs
    /\ (forall d r,
          ~ In (writeFile "analysis_results/analysis.json" d, r)
              ((mkdir OUTPUT_DIRECTORY true, Returned tt) :: cs))
    /\ In (writeFile "analysis_results/_error_analyzer_result_content.txt"
             (Text ("Attempted to decode this as JSON (from base64):"
                      +:+ JS.newline +:+ JS.newline +:+ "nope")), Returned tt) cs.
Proof.
  split; [reflexivity|].
  destruct (persist_diagnoses_unparsable_json (RT := Mem.ideal)
              (fun p d s => eq_refl)
              (Sample.response
                 (Some (Sample.bundle (DataURL.wrap "application/json" "bm9w*ZQ=="))))
              (Sample.bundle (DataURL.wrap "application/json" "bm9w*ZQ=="))
              OUTPUT_DIRECTORY (DataURL.wrap "application/json" "bm9w*ZQ==") "bm9w*ZQ=="
              (SyntaxError "Unexpected token") Sample.content Mem.start
              eq_refl eq_refl)
    as (w' & cs & H1 & H2 & H3 & H4).
  - vm_compute. reflexivity.
  - reflexivity.
  - discriminate.
  - reflexivity.
  - apply sample_bundle_holds.
  - intros name H. vm_compute in H.
    repeat (destruct H as [<-|H]; [vm_compute; discriminate|]). destruct H.
  - exists w', cs. split; [exact H1|]. split; [exact H2|]. split; [exact H4|].
    rewrite H3. left. reflexivity.
Defined.

(** The payload [bnVs!bA==] is not base64, and the lenient decoder reads
    [null] from it: [analysis.json] is written and no diagnostic file is. *)
Lemma invalid_base64_may_still_parse :
  let r := processAnalysisResults (RT := Mem.ideal)
             (Sample.response
                (Some (Sample.bundle (DataURL.wrap "application/json" "bnVs!bA=="))))
             OUTPUT_DIRECTORY Mem.start in
  Base64.valid_base64 "bnVs!bA==" = false
  /\ (forall key, In key ("visualization" :: audioFileKeys) ->
                  DataURL.holds (Sample.bundle (DataURL.wrap "application/json" "bnVs!bA=="))
                    key (Sample.content key))
  /\ fst r = Returned tt
  /\ map (fun c => (match fst c with
                    | mkdir p _ => p | writeFile p _ => p | unlink p => p
                    end, returned (snd c))) (w_calls (snd r))
     = [("analysis_results", true);
        ("analysis_results/analysis.json", true);
        ("analysis_results/visualization.png", true);
        ("analysis_results/demucs_bass.wav", true);
        ("analysis_results/demucs_drums.wav", true);
        ("analysis_results/demucs_guitar.wav", true);
        ("analysis_results/demucs_other.wav", true);
        ("analysis_results/demucs_piano.wav", true);
        ("analysis_results/demucs_vocals.wav", true);
        ("analysis_results/mdx_instrumental.wav", true);
        ("analysis_results/mdx_other.wav", true);
        ("analysis_results/mdx_vocals.wav", true);
        ("analysis_results/sonification.mp3", true)]
  /\ Mem.files (w_fs (snd r)) !! "analysis_results/analysis.json" = Some (Text "null")
  /\ Mem.files (w_fs (snd r)) !! "analysis_results/_error_analyzer_result_content.txt"
     = None.
Proof.
  split; [reflexivity|]. split; [apply sample_bundle_holds|].
  vm_compute. repeat split.
Qed.

(** * Further properties of the code *)

(** ** More on strings *)

Module StrFacts.

Import JS JSFacts Str.

(** The parts after the first, joined, are what follows the first
    separator. *)
Lemma join_tail sep s :
  join (String sep EmptyString) (slice1 (split sep s)) = after_first sep s.
Proof.
  induction s as [|c s IH]; [reflexivity|]. cbn [split after_first].
  destruct (split sep s) as [|p ps] eqn:E; [exfalso; exact (split_not_nil _ _ E)|].
  destruct (Ascii.eqb c sep).
  - cbn [slice1 tl]. rewrite <- E. apply join_split.
  - exact IH.
Qed.

(** A string is a segment, and, when it has the separator, the separator
    and what follows. *)
Lemma before_after sep s :
  s = if has_char sep s
      then before_first sep s +:+ String sep (after_first sep s)
      else before_first sep s.
Proof.
  induction s as [|c s IH]; [reflexivity|]. cbn [has_char before_first after_first].
  destruct (Ascii.eqb_spec c sep) as [->|_]; [reflexivity|]. cbn [orb].
  destruct (has_char sep s); rewrite ?append_cons; congruence.
Qed.

(** [trim] leaves nothing exactly of the strings made of white space. *)
Lemma trim_empty s : is_empty (trim s) = all_space s.
Proof.
  unfold trim. induction s as [|c s IH]; [reflexivity|]. cbn [trimStart all_space].
  destruct (is_space c) eqn:Hc; [exact IH|]. cbn [trimEnd andb]. rewrite Hc.
  destruct (trimEnd s); reflexivity.
Qed.

Lemma list_of_append s t :
  list_ascii_of_string (s +:+ t) = list_ascii_of_string s ++ list_ascii_of_string t.
Proof.
  induction s as [|c s IH]; [reflexivity|]. rewrite append_cons. cbn. now rewrite IH.
Qed.

Lemma list_of_string_inj s t : list_ascii_of_string s = list_ascii_of_string t -> s = t.
Proof.
  intros H. rewrite <- (string_of_list_ascii_of_string s), H.
  apply string_of_list_ascii_of_string.
Qed.

(** Appending the same ending is injective. *)
Lemma append_inj_l s t u : s +:+ u = t +:+ u -> s = t.
Proof.
  intros H. apply list_of_string_inj.
  apply (f_equal list_ascii_of_string) in H. rewrite !list_of_append in H.
  exact (app_inv_tail _ _ _ H).
Qed.

(** Two strings with different last characters are different. *)
Lemma append_last_ne s t (a b : ascii) :
  a <> b -> s +:+ String a EmptyString <> t +:+ String b EmptyString.
Proof.
  intros Hab H. apply (f_equal list_ascii_of_string) in H.
  rewrite !list_of_append in H. cbn in H.
  apply (f_equal (@rev ascii)) in H. rewrite !rev_app_distr in H. cbn in H.
  injection H as H _. exact (Hab H).
Qed.

End StrFacts.

(** ** More on the stripper *)

Section StripMore.

Context {RT : Runtime}.
Import JS JSFacts Str StrFacts.

(** The stripper on a non-empty string, in terms of the segment before the
    first comma and of what follows it. *)
Lemma strip_run s (w : World) :
  s <> EmptyString ->
  stripDataUrlPrefixAndGetBase64 (Some s) w
  = if has_char comma s && includes ";base64" (before_first comma s)
    then (Returned (Some (after_first comma s)), w)
    else (Returned (Some s),
          logged [WARN ("String does not appear to be a 'data:TYPE;base64,DATA' URL: "
                          +:+ substring0 50 s +:+ "...")] w).
Proof.
  intros Hs. unfold stripDataUrlPrefixAndGetBase64.
  rewrite truthy_nonempty by (destruct s; [congruence|reflexivity]).
  cbv zeta. rewrite split_several, split_head.
  destruct (has_char comma s && includes ";base64" (before_first comma s)); [|reflexivity].
  change "," with (String comma EmptyString). now rewrite join_tail.
Qed.


(** On a non-empty string the stripper has two answers.  When the string
    has a comma and the segment before its first comma has the marker
    [;base64], it returns what follows that comma and logs nothing;
    otherwise it returns the string itself and logs a warning that shows at
    most its first 50 characters.  In both cases the answer is an ending
    of the string. *)
Theorem strip_two_answers (s : string) (w : World) :
  s <> EmptyString ->
  (has_char comma s = true ->
   includes ";base64" (before_first comma s) = true ->
   stripDataUrlPrefixAndGetBase64 (Some s) w
   = (Returned (Some (after_first comma s)), w)
   /\ s = before_first comma s +:+ String comma (after_first comma s))
  /\ (has_char comma s = false \/ includes ";base64" (before_first comma s) = false ->
      stripDataUrlPrefixAndGetBase64 (Some s) w
      = (Returned (Some s),
         logged [WARN ("String does not appear to be a 'data:TYPE;base64,DATA' URL: "
                         +:+ substring0 50 s +:+ "...")] w)
      /\ String.length (substring0 50 s) <= 50).
Proof.
  intros Hs. rewrite (strip_run s w Hs). split.
  - intros Hc Hm. rewrite Hc, Hm. split; [reflexivity|].
    pose proof (before_after comma s) as H. now rewrite Hc in H.
  - intros H. split; [|apply substring0_length].
    destruct H as [-> | ->]; [reflexivity|]. now rewrite andb_false_r.
Qed.

End StripMore.

Lemma strip_two_answers_witness :
  stripDataUrlPrefixAndGetBase64 (RT := Mem.ideal) (Some "a,b;base64,c") Mem.start
  = (Returned (Some "a,b;base64,c"),
     logged [WARN "String does not appear to be a 'data:TYPE;base64,DATA' URL: a,b;base64,c..."]
       Mem.start).
Proof.
  destruct (strip_two_answers (RT := Mem.ideal) "a,b;base64,c" Mem.start) as [_ H].
  - discriminate.
  - apply H. right. reflexivity.
Defined.

(** ** More on [decodeAndSave] *)

Section DecodeAndSaveMore.

Context {RT : Runtime}.
Import JS JSFacts Str StrFacts.

(** The emptiness test of [decodeAndSave] holds of [null] and of the
    strings made of white space. *)
Lemma is_blank_all_space b :
  is_blank b = match b with Some s => all_space s | None => true end.
Proof.
  destruct b as [[|c s]|]; try reflexivity.
  unfold is_blank. cbn [truthy is_empty]. apply trim_empty.
Qed.

(** The calls of a run of [decodeAndSave]: none, the write, or the failed
    write and the unlink. *)
Lemma decodeAndSave_shape o filePath fileName (w : World) :
  exists w' cs,
    decodeAndSave o filePath fileName w = (Returned tt, w')
    /\ w_calls w' = w_calls w ++ cs
    /\ (cs = []
        \/ (exists d, cs = [(writeFile filePath d, Returned tt)])
        \/ (exists d e r, cs = [(writeFile filePath d, Thrown e); (unlink filePath, r)])).
Proof.
  destruct (strip_returns o w) as (b & w1 & ls0 & Hs & Hf & Hc & Hl).
  destruct (is_blank b) eqn:Hb.
  - unfold decodeAndSave, bind. rewrite Hs, Hb.
    eexists _, []. split; [reflexivity|]. cbn [w_calls]. rewrite Hc, app_nil_r.
    split; [reflexivity|now left].
  - rewrite (decodeAndSave_run o filePath fileName w b w1 Hs Hb). cbv zeta.
    destruct (fs_exec _ (w_fs w1)) as [[[]|e] s1].
    + eexists _, [_]. split; [reflexivity|]. cbn [w_calls]. rewrite Hc.
      split; [reflexivity|]. right. left. eexists. reflexivity.
    + eexists _, [_; _]. split; [reflexivity|]. cbn [w_calls].
      rewrite Hc, <- app_assoc. split; [reflexivity|]. right. right.
      eexists _, _, _. reflexivity.
Qed.

(** [decodeAndSave] returns for every input and every file system.  It
    makes at most two calls, all on [filePath]: it creates no directory,
    and it unlinks the file only after a write of it that threw. *)
Theorem decodeAndSave_confined o filePath fileName (w : World) :
  exists w' cs,
    decodeAndSave o filePath fileName w = (Returned tt, w')
    /\ w_calls w' = w_calls w ++ cs
    /\ length cs <= 2
    /\ Forall (fun c : FsCall =>
                 match fst c with
                 | writeFile p _ | unlink p => p = filePath
                 | mkdir _ _ => False
                 end) cs
    /\ forall r, In (unlink filePath, r) cs ->
                 exists d e, cs = [(writeFile filePath d, Thrown e); (unlink filePath, r)].
Proof.
  destruct (decodeAndSave_shape o filePath fileName w)
    as (w' & cs & Hr & Hc & [->|[(d & ->)|(d & e & r & ->)]]);
    exists w'; eexists; (split; [exact Hr|]); (split; [exact Hc|]).
  - repeat split; [cbn; lia|constructor|intros r []].
  - repeat split; [cbn; lia|repeat constructor|].
    intros r [H|[]]. discriminate H.
  - repeat split; [cbn; lia|repeat constructor|].
    intros r' [H|[H|[]]]; [discriminate H|]. injection H as <-. now exists d, e.
Qed.

(** When what the stripper returns is [null] or white space only (the
    empty string included), [decodeAndSave] warns that it skips the file
    and returns: the file system is left as it was and no call is made. *)
Theorem decodeAndSave_skips_white_space o filePath fileName (w : World) b w1 :
  stripDataUrlPrefixAndGetBase64 o w = (Returned b, w1) ->
  (forall s, b = Some s -> all_space s = true) ->
  decodeAndSave o filePath fileName w
  = (Returned tt,
     logged [WARN ("Skipping " +:+ fileName
                     +:+ ": Base64 data is empty or undefined after stripping prefix.")] w1)
  /\ w_fs w1 = w_fs w /\ w_calls w1 = w_calls w.
Proof.
  intros Hs Hb.
  assert (Hblank : is_blank b = true).
  { rewrite is_blank_all_space. destruct b as [s|]; [now apply Hb|reflexivity]. }
  split.
  - unfold decodeAndSave, bind. now rewrite Hs, Hblank.
  - destruct (strip_returns o w) as (b' & w1' & ls0 & Hs' & Hf & Hc & _).
    rewrite Hs in Hs'. injection Hs' as _ <-. now split.
Qed.

Lemma b64char_not_comma v : (v < 64)%N -> Ascii.eqb (Base64.b64char v) comma = false.
Proof.
  intros Hv. apply negb_true_iff. revert v Hv.
  apply (Base64Facts.forall_sextet (fun v => negb (Ascii.eqb (Base64.b64char v) comma))).
  vm_compute. reflexivity.
Qed.

(** An encoding has no comma. *)
Lemma encoding_no_comma bs : has_char comma (Base64.toString_base64 bs) = false.
Proof.
  induction bs as [|a|a b|a b c l IH] using Base64Facts.list_ind3;
    cbn [Base64.toString_base64 has_char];
    rewrite ?b64char_not_comma
      by auto using Base64Facts.enc1_lt, Base64Facts.enc2_lt, Base64Facts.enc3_lt,
           Base64Facts.enc4_lt;
    try reflexivity.
  exact IH.
Qed.

(** The raw base64 of a non-empty byte sequence and its data URL are saved
    alike: [decodeAndSave] makes the same calls for both, the first of them
    the write of the bytes, and leaves the file system in the same state.
    Only the raw string costs a warning: the console of its run is the
    console of the data URL's run with the stripper's warning before its
    lines. *)
Theorem raw_base64_saved_like_data_url mime bs filePath fileName (w : World) :
  DataURL.valid_mime mime = true -> bs <> [] ->
  exists w1 w2 r rest ls,
    decodeAndSave (Some (Base64.toString_base64 bs)) filePath fileName w = (Returned tt, w1)
    /\ decodeAndSave (Some (DataURL.of_bytes mime bs)) filePath fileName w = (Returned tt, w2)
    /\ w_fs w1 = w_fs w2
    /\ w_calls w1 = w_calls w2
    /\ w_calls w1 = w_calls w ++ (writeFile filePath (Bytes bs), r) :: rest
    /\ w_console w2 = w_console w ++ ls
    /\ w_console w1
       = w_console w
           ++ WARN ("String does not appear to be a 'data:TYPE;base64,DATA' URL: "
                      +:+ substring0 50 (Base64.toString_base64 bs) +:+ "...") :: ls
    /\ Forall (fun l => match l with WARN _ => False | _ => True end) ls.
Proof.
  intros Hm Hbs.
  assert (Hraw : stripDataUrlPrefixAndGetBase64 (Some (Base64.toString_base64 bs)) w
                 = (Returned (Some (Base64.toString_base64 bs)),
                    logged [WARN ("String does not appear to be a 'data:TYPE;base64,DATA' URL: "
                                    +:+ substring0 50 (Base64.toString_base64 bs) +:+ "...")] w)).
  { rewrite strip_run, encoding_no_comma; [reflexivity|].
    destruct (Base64Facts.encode_head bs Hbs) as (v & s & _ & ->). discriminate. }
  rewrite (decodeAndSave_run _ filePath fileName w _ _ Hraw (is_blank_encoding bs Hbs)).
  unfold DataURL.of_bytes.
  rewrite (decodeAndSave_run _ filePath fileName w _ w
             (strip_wrap mime _ w Hm) (is_blank_encoding bs Hbs)).
  cbv zeta. cbn [from_option id logged w_fs w_calls w_console].
  rewrite Base64Facts.decode_encode.
  destruct (fs_exec _ (w_fs w)) as [[[]|e] s1].
  - eexists _, _, _, _, [_]. cbn [w_fs w_calls w_console].
    rewrite <- ?app_assoc. repeat split. repeat constructor.
  - eexists _, _, _, _, [_; _]. cbn [w_fs w_calls w_console].
    rewrite <- ?app_assoc. repeat split. repeat constructor.
Qed.

End DecodeAndSaveMore.

Lemma decodeAndSave_skips_white_space_witness :
  decodeAndSave (RT := Mem.ideal) (Some (DataURL.wrap "audio/wav" "  "))
    "analysis_results/mdx_other.wav" "mdx_other.wav" Mem.start
  = (Returned tt,
     logged [WARN "Skipping mdx_other.wav: Base64 data is empty or undefined after stripping prefix."]
       Mem.start).
Proof.
  apply (decodeAndSave_skips_white_space (RT := Mem.ideal)
           (Some (DataURL.wrap "audio/wav" "  "))
           "analysis_results/mdx_other.wav" "mdx_other.wav" Mem.start
           (Some "  ") Mem.start eq_refl).
  intros s [= <-]. reflexivity.
Defined.

Lemma raw_base64_saved_like_data_url_witness :
  exists w1 w2 r rest ls,
    decodeAndSave (RT := Mem.ideal) (Some "UklGRg==")
      "analysis_results/mdx_other.wav" "mdx_other.wav" Mem.start = (Returned tt, w1)
    /\ decodeAndSave (RT := Mem.ideal) (Some (DataURL.of_bytes "audio/wav" Sample.audio))
         "analysis_results/mdx_other.wav" "mdx_other.wav" Mem.start = (Returned tt, w2)
    /\ w_fs w1 = w_fs w2
    /\ w_calls w1 = w_calls w2
    /\ w_calls w1
       = w_calls Mem.start
           ++ (writeFile "analysis_results/mdx_other.wav" (Bytes Sample.audio), r) :: rest
    /\ w_console w2 = w_console Mem.start ++ ls
    /\ w_console w1
       = w_console Mem.start
           ++ WARN "String does not appear to be a 'data:TYPE;base64,DATA' URL: UklGRg==..."
              :: ls
    /\ Forall (fun l => match l with WARN _ => False | _ => True end) ls.
Proof.
  apply (raw_base64_saved_like_data_url (RT := Mem.ideal) "audio/wav" Sample.audio
           "analysis_results/mdx_other.wav" "mdx_other.wav" Mem.start).
  - reflexivity.
  - discriminate.
Defined.

(** ** More on [processAnalysisResults]: the directory and the JSON field *)

Section PersistMore.

Context {RT : Runtime}.
Import JS JSFacts Str StrFacts.

Lemma fs_call_run op (w : World) r s :
  fs_exec op (w_fs w) = (r, s) ->
  fs_call op w
  = (r, {| w_fs := s; w_calls := w_calls w ++ [(op, r)]; w_console := w_console w |}).
Proof. intros H. unfold fs_call. now rewrite H. Qed.

Lemma bind_thrown {A B} (m : Async A) (k : A -> Async B) w e w1 :
  m w = (Thrown e, w1) -> bind m k w = (Thrown e, w1).
Proof. intros H. unfold bind. now rewrite H. Qed.

(** When [fs.mkdir] throws, [processAnalysisResults] throws the same error:
    the failed [mkdir] is its one call and it logs nothing, whatever the
    bundle holds. *)
Theorem mkdir_failure_is_fatal (apiResponse : ApiPredictionResponse)
    (bundle : MusicAnalysisOutput) (outputDir : string) (w : World) e s :
  output apiResponse = Some bundle ->
  fs_exec (mkdir outputDir true) (w_fs w) = (Thrown e, s) ->
  processAnalysisResults apiResponse outputDir w
  = (Thrown e,
     {| w_fs := s;
        w_calls := w_calls w ++ [(mkdir outputDir true, Thrown e)];
        w_console := w_console w |}).
Proof.
  intros Ho Hmk. unfold processAnalysisResults. rewrite Ho.
  apply bind_thrown. now apply fs_call_run.
Qed.

(** The JSON block on a text that does not parse, when the first write of
    the diagnostic file throws: the block writes the stripped base64 to the
    diagnostic file instead, and ends as that second write ends. *)
Lemma json_block_fallback (bundle : MusicAnalysisOutput) outputDir a b e e1 s1
    (w : World) :
  bundle !! "analyzer_result" = Some a ->
  fst (stripDataUrlPrefixAndGetBase64 (Some a) w) = Returned (Some b) ->
  b <> EmptyString ->
  JSON_parse (toString_utf8 (Base64.Buffer_from_base64 b)) = Thrown e ->
  let errorFilePath := path_join outputDir "_error_analyzer_result_content.txt" in
  let first :=
    writeFile errorFilePath
      (Text ("Attempted to decode this as JSON (from base64):"
               +:+ newline +:+ newline
               +:+ toString_utf8 (Base64.Buffer_from_base64 b))) in
  let second :=
    writeFile errorFilePath
      (Text ("Could not even base64 decode this for the error file. Original base64 (after prefix strip):"
               +:+ newline +:+ newline +:+ b)) in
  fs_exec first (w_fs w) = (Thrown e1, s1) ->
  exists w' ls,
    processAnalyzerResult bundle outputDir w = (fst (fs_exec second s1), w')
    /\ w_fs w' = snd (fs_exec second s1)
    /\ w_calls w' = w_calls w ++ [(first, Thrown e1); (second, fst (fs_exec second s1))]
    /\ w_console w' = w_console w ++ ls.
Proof.
  intros Hk Hs Hne Hp errorFilePath first second H1.
  assert (Ha : truthy (Some a) = Some a).
  { destruct a; [discriminate Hs|reflexivity]. }
  unfold processAnalyzerResult. rewrite Hk, Ha. cbv zeta.
  destruct (strip_returns (Some a) w) as (b0 & w1 & ls0 & Hr & Hf & Hc & Hl).
  rewrite Hr in Hs. cbn [fst] in Hs. injection Hs as ->.
  rewrite (bind_returned _ _ _ _ _ Hr).
  rewrite truthy_nonempty by (destruct b; [congruence|reflexivity]).
  unfold try_catch, bind, of_outcome, fs_call, console_error, console_emit.
  rewrite Hp. cbn [w_fs w_calls w_console]. fold errorFilePath. fold first. fold second.
  rewrite Hf, H1. cbn [w_fs w_calls w_console].
  destruct (fs_exec second s1) as [[[]|e2] s2]; cbn [fst snd w_fs w_calls w_console];
    eexists _, _; (split; [reflexivity|]); cbn [w_fs w_calls w_console];
    rewrite Hc, Hl, <- ?app_assoc; repeat split.
Qed.

(** A text that does not parse and a diagnostic file that cannot be
    written at all: the second write of the diagnostic file is outside
    every [try], so [processAnalysisResults] throws its error.  The calls
    of the run are the [mkdir] and the two failed writes: no binary field
    is processed. *)
Theorem diagnostic_failure_aborts (apiResponse : ApiPredictionResponse)
    (bundle : MusicAnalysisOutput) (outputDir a b : string) e e1 e2 s0 s1 s2
    (w : World) :
  output apiResponse = Some bundle ->
  bundle !! "analyzer_result" = Some a ->
  fst (stripDataUrlPrefixAndGetBase64 (Some a) w) = Returned (Some b) ->
  b <> EmptyString ->
  JSON_parse (toString_utf8 (Base64.Buffer_from_base64 b)) = Thrown e ->
  let errorFilePath := path_join outputDir "_error_analyzer_result_content.txt" in
  let first :=
    writeFile errorFilePath
      (Text ("Attempted to decode this as JSON (from base64):"
               +:+ newline +:+ newline
               +:+ toString_utf8 (Base64.Buffer_from_base64 b))) in
  let second :=
    writeFile errorFilePath
      (Text ("Could not even base64 decode this for the error file. Original base64 (after prefix strip):"
               +:+ newline +:+ newline +:+ b)) in
  fs_exec (mkdir outputDir true) (w_fs w) = (Returned tt, s0) ->
  fs_exec first s0 = (Thrown e1, s1) ->
  fs_exec second s1 = (Thrown e2, s2) ->
  exists w',
    processAnalysisResults apiResponse outputDir w = (Thrown e2, w')
    /\ w_fs w' = s2
    /\ w_calls w'
       = w_calls w
           ++ [(mkdir outputDir true, Returned tt); (first, Thrown e1); (second, Thrown e2)].
Proof.
  intros Ho Hk Hs Hne Hp errorFilePath first second Hmk H1 H2.
  unfold processAnalysisResults. rewrite Ho.
  rewrite (bind_returned _ _ _ _ _ (fs_call_run _ w _ _ Hmk)), bind_log.
  match goal with |- context [bind _ _ ?w0] => set (w1 := w0) end.
  destruct (json_block_fallback bundle outputDir a b e e1 s1 w1 Hk
              (eq_trans (strip_value_indep _ w1 w) Hs) Hne Hp H1)
    as (w2 & ls & Hr & Hf & Hc & _).
  fold errorFilePath in Hr, Hf, Hc. fold first in Hc. fold second in Hr, Hf, Hc.
  rewrite H2 in Hr, Hf, Hc. cbn [fst snd] in Hr, Hf, Hc.
  exists w2. split; [now apply bind_thrown|]. split; [exact Hf|].
  rewrite Hc. cbn [w1 logged w_calls]. now rewrite <- app_assoc.
Qed.

(** The same, when the second write of the diagnostic file succeeds: the
    stripped base64 is in the diagnostic file, and the processing goes on
    to its end. *)
Theorem diagnostic_fallback_continues (apiResponse : ApiPredictionResponse)
    (bundle : MusicAnalysisOutput) (outputDir a b : string) e e1 s0 s1 s2
    (w : World) :
  output apiResponse = Some bundle ->
  bundle !! "analyzer_result" = Some a ->
  fst (stripDataUrlPrefixAndGetBase64 (Some a) w) = Returned (Some b) ->
  b <> EmptyString ->
  JSON_parse (toString_utf8 (Base64.Buffer_from_base64 b)) = Thrown e ->
  let errorFilePath := path_join outputDir "_error_analyzer_result_content.txt" in
  let first :=
    writeFile errorFilePath
      (Text ("Attempted to decode this as JSON (from base64):"
               +:+ newline +:+ newline
               +:+ toString_utf8 (Base64.Buffer_from_base64 b))) in
  let second :=
    writeFile errorFilePath
      (Text ("Could not even base64 decode this for the error file. Original base64 (after prefix strip):"
               +:+ newline +:+ newline +:+ b)) in
  fs_exec (mkdir outputDir true) (w_fs w) = (Returned tt, s0) ->
  fs_exec first s0 = (Thrown e1, s1) ->
  fs_exec second s1 = (Returned tt, s2) ->
  exists w' cs ls,
    processAnalysisResults apiResponse outputDir w = (Returned tt, w')
    /\ w_calls w'
       = w_calls w
           ++ (mkdir outputDir true, Returned tt) :: (first, Thrown e1)
              :: (second, Returned tt) :: cs
    /\ w_console w' = w_console w ++ ls
    /\ last ls = Some (LOG "--- Finished processing all output fields ---").
Proof.
  intros Ho Hk Hs Hne Hp errorFilePath first second Hmk H1 H2.
  unfold processAnalysisResults. rewrite Ho.
  rewrite (bind_returned _ _ _ _ _ (fs_call_run _ w _ _ Hmk)), bind_log.
  match goal with |- context [bind _ _ ?w0] => set (w1 := w0) end.
  destruct (json_block_fallback bundle outputDir a b e e1 s1 w1 Hk
              (eq_trans (strip_value_indep _ w1 w) Hs) Hne Hp H1)
    as (w2 & ls2 & Hr2 & _ & Hc2 & Hl2).
  fold errorFilePath in Hr2, Hc2. fold first in Hc2. fold second in Hr2, Hc2.
  rewrite H2 in Hr2, Hc2. cbn [fst snd] in Hr2, Hc2.
  rewrite (bind_returned _ _ _ _ _ Hr2).
  destruct (processVisualization_total bundle outputDir w2)
    as (w3 & cs3 & ls3 & Hr3 & Hc3 & Hl3 & _).
  rewrite (bind_returned _ _ _ _ _ Hr3), bind_log.
  match goal with |- context [bind _ _ ?w0] => set (w4 := w0) end.
  destruct (audio_loop_total bundle outputDir audioFileKeys w4)
    as (w5 & cs5 & ls5 & Hr5 & Hc5 & Hl5 & _).
  rewrite (bind_returned _ _ _ _ _ Hr5).
  unfold console_log, console_emit.
  eexists _, (cs3 ++ cs5), ([_] ++ ls2 ++ ls3 ++ [_] ++ ls5 ++ [_]).
  split; [reflexivity|]. cbn [w_calls w_console].
  rewrite Hc5, Hl5. cbn [w4 logged w_calls w_console].
  rewrite Hc3, Hl3, Hc2, Hl2. cbn [w1 logged w_calls w_console].
  split; [now rewrite <- !app_assoc|]. split; [now rewrite <- !app_assoc|].
  rewrite !app_assoc. apply last_snoc.
Qed.

End PersistMore.

Lemma mkdir_failure_is_fatal_witness :
  processAnalysisResults (RT := Mem.read_only) (Sample.response (Some Sample.full))
    OUTPUT_DIRECTORY Mem.start_read_only
  = (Thrown (SystemError "EACCES"),
     @Build_World Mem.read_only Mem.empty
       [(mkdir OUTPUT_DIRECTORY true, Thrown (SystemError "EACCES"))] []).
Proof.
  apply (mkdir_failure_is_fatal (RT := Mem.read_only) (Sample.response (Some Sample.full))
           Sample.full OUTPUT_DIRECTORY Mem.start_read_only
           (SystemError "EACCES") Mem.empty); reflexivity.
Defined.

Lemma diagnostic_failure_aborts_witness :
  exists w',
    processAnalysisResults (RT := Mem.no_json)
      (Sample.response (Some (Sample.bundle "bm9w*ZQ==")))
      OUTPUT_DIRECTORY Mem.start_no_json
    = (Thrown (SystemError "EACCES"), w')
    /\ length (w_calls w') = 3.
Proof.
  destruct (diagnostic_failure_aborts (RT := Mem.no_json)
              (Sample.response (Some (Sample.bundle "bm9w*ZQ==")))
              (Sample.bundle "bm9w*ZQ==") OUTPUT_DIRECTORY "bm9w*ZQ==" "bm9w*ZQ=="
              (SyntaxError "Unexpected token") (SystemError "EACCES") (SystemError "EACCES")
              {| Mem.files := ∅; Mem.dirs := {[OUTPUT_DIRECTORY]} ∪ ∅ |}
              {| Mem.files := ∅; Mem.dirs := {[OUTPUT_DIRECTORY]} ∪ ∅ |}
              {| Mem.files := ∅; Mem.dirs := {[OUTPUT_DIRECTORY]} ∪ ∅ |}
              Mem.start_no_json eq_refl)
    as (w' & H1 & _ & H2).
  - vm_compute. reflexivity.
  - reflexivity.
  - discriminate.
  - reflexivity.
  - reflexivity.
  - reflexivity.
  - reflexivity.
  - exists w'. split; [exact H1|]. now rewrite H2.
Defined.

Lemma diagnostic_fallback_continues_witness :
  exists w' cs ls,
    processAnalysisResults (RT := Mem.flaky)
      (Sample.response (Some (Sample.bundle "bm9w*ZQ==")))
      OUTPUT_DIRECTORY (Mem.start_flaky 1)
    = (Returned tt, w')
    /\ w_calls w'
       = (mkdir OUTPUT_DIRECTORY true, Returned tt)
           :: (writeFile "analysis_results/_error_analyzer_result_content.txt"
                 (Text ("Attempted to decode this as JSON (from base64):"
                          +:+ JS.newline +:+ JS.newline +:+ "nope")),
               Thrown (SystemError "EIO"))
           :: (writeFile "analysis_results/_error_analyzer_result_content.txt"
                 (Text ("Could not even base64 decode this for the error file. Original base64 (after prefix strip):"
                          +:+ JS.newline +:+ JS.newline +:+ "bm9w*ZQ==")),
               Returned tt)
           :: cs
    /\ w_console w' = ls
    /\ last ls = Some (LOG "--- Finished processing all output fields ---").
Proof.
  eapply (diagnostic_fallback_continues (RT := Mem.flaky)
            (Sample.response (Some (Sample.bundle "bm9w*ZQ==")))
            (Sample.bundle "bm9w*ZQ==") OUTPUT_DIRECTORY "bm9w*ZQ==" "bm9w*ZQ=="
            (SyntaxError "Unexpected token") (SystemError "EIO") _ _ _
            (Mem.start_flaky 1) eq_refl).
  - vm_compute. reflexivity.
  - reflexivity.
  - discriminate.
  - reflexivity.
  - reflexivity.
  - reflexivity.
  - reflexivity.
Defined.

(** ** More on [processAnalysisResults]: where it writes, what it reads *)

(** The call in the goal is on the named file of the catalogue. *)
Ltac on_catalogue :=
  cbn [within fst]; eexists; split; cycle 1;
  [reflexivity | cbn [catalogFileNames binaryArtifacts map snd In]; tauto].

Section Confinement.

Context {RT : Runtime}.
Import JS JSFacts Str StrFacts.

(** The calls of the JSON block are writes of [analysis.json] and of the
    diagnostic file, whether the block returns or throws. *)
Lemma processAnalyzerResult_within (bundle : MusicAnalysisOutput) outputDir (w : World) :
  exists r w' cs,
    processAnalyzerResult bundle outputDir w = (r, w')
    /\ w_calls w' = w_calls w ++ cs
    /\ Forall (within outputDir) cs.
Proof.
  unfold processAnalyzerResult.
  destruct (truthy (bundle !! "analyzer_result")) as [a|].
  2:{ eexists _, _, []. split; [reflexivity|]. cbn [w_calls]. now rewrite app_nil_r. }
  cbv zeta.
  destruct (strip_returns (Some a) w) as (b0 & w1 & ls0 & Hs & Hf & Hc & Hl).
  rewrite (bind_returned _ _ _ _ _ Hs).
  destruct (truthy b0) as [b|].
  2:{ eexists _, _, []. split; [reflexivity|]. cbn [w_calls].
      now rewrite Hc, app_nil_r. }
  unfold try_catch, bind, of_outcome, fs_call, console_error, console_log,
    console_emit. cbn [w_fs w_calls w_console].
  destruct (JSON_parse _) as [v|e].
  - destruct (fs_exec _ (w_fs w1)) as [[[]|e] s1]; cbn [w_fs w_calls w_console].
    + eexists _, _, [_]. split; [reflexivity|]. cbn [w_calls]. rewrite Hc.
      split; [reflexivity|]. repeat constructor. on_catalogue.
    + destruct (fs_exec _ s1) as [[[]|e1] s2]; cbn [w_fs w_calls w_console].
      * eexists _, _, [_; _]. split; [reflexivity|]. cbn [w_calls].
        rewrite Hc, <- !app_assoc. split; [reflexivity|].
        repeat constructor; on_catalogue.
      * destruct (fs_exec _ s2) as [[[]|e2] s3]; cbn [w_fs w_calls w_console];
          (eexists _, _, [_; _; _]; split; [reflexivity|]; cbn [w_calls];
           rewrite Hc, <- !app_assoc; split; [reflexivity|];
           repeat constructor; on_catalogue).
  - destruct (fs_exec _ (w_fs w1)) as [[[]|e1] s2]; cbn [w_fs w_calls w_console].
    + eexists _, _, [_]. split; [reflexivity|]. cbn [w_calls]. rewrite Hc.
      split; [reflexivity|]. repeat constructor. on_catalogue.
    + destruct (fs_exec _ s2) as [[[]|e2] s3]; cbn [w_fs w_calls w_console];
        (eexists _, _, [_; _]; split; [reflexivity|]; cbn [w_calls];
         rewrite Hc, <- !app_assoc; split; [reflexivity|];
         repeat constructor; on_catalogue).
Qed.

Lemma field_block_within (bundle : MusicAnalysisOutput) key outputDir fileName msg
    (w : World) :
  In fileName (map snd binaryArtifacts) ->
  exists w' cs,
    match truthy (bundle !! key) with
    | Some u => decodeAndSave (Some u) (path_join outputDir fileName) fileName
    | None => console_warn msg
    end w = (Returned tt, w')
    /\ w_calls w' = w_calls w ++ cs
    /\ Forall (within outputDir) cs.
Proof.
  intros Hin.
  assert (Hname : exists name,
             In name catalogFileNames /\ path_join outputDir fileName = path_join outputDir name).
  { exists fileName. split; [right; right; exact Hin|reflexivity]. }
  destruct (truthy (bundle !! key)) as [u|].
  - destruct (decodeAndSave_shape (Some u) (path_join outputDir fileName) fileName w)
      as (w' & cs & Hr & Hc & [->|[(d & ->)|(d & e & r & ->)]]);
      exists w'; eexists; (split; [exact Hr|]); (split; [exact Hc|]);
      repeat constructor; exact Hname.
  - eexists _, []. split; [reflexivity|]. cbn [w_calls]. rewrite app_nil_r.
    split; [reflexivity|constructor].
Qed.

Lemma audio_loop_within (bundle : MusicAnalysisOutput) outputDir keys (w : World) :
  (forall k, In k keys -> In (audioFileName k) (map snd binaryArtifacts)) ->
  exists w' cs,
    for_of keys (processAudioKey bundle outputDir) w = (Returned tt, w')
    /\ w_calls w' = w_calls w ++ cs
    /\ Forall (within outputDir) cs.
Proof.
  revert w. induction keys as [|k keys IH]; intros w Hk.
  - exists w, []. rewrite app_nil_r. repeat split. constructor.
  - destruct (field_block_within bundle k outputDir (audioFileName k)
                (k +:+ " not found in output or is empty.") w (Hk k (or_introl eq_refl)))
      as (w1 & cs1 & Hr1 & Hc1 & Hw1).
    destruct (IH w1 (fun k' H => Hk k' (or_intror H))) as (w2 & cs2 & Hr2 & Hc2 & Hw2).
    exists w2, (cs1 ++ cs2). cbn [for_of].
    rewrite (bind_returned _ _ _ _ _ Hr1), Hr2, Hc2, Hc1, <- app_assoc.
    repeat split. now apply Forall_app.
Qed.

Lemma audio_names_in_catalogue k :
  In k audioFileKeys -> In (audioFileName k) (map snd binaryArtifacts).
Proof.
  intros H. right. unfold binaryArtifacts. rewrite map_map. cbn [snd].
  now apply in_map.
Qed.

(** Whatever the bundle holds and whatever the file system does, a run of
    [processAnalysisResults] on a response with output starts with the
    creation of the output directory, creates no other directory, and then
    only writes or unlinks files of the catalogue in that directory. *)
Theorem persist_stays_in_output_directory (apiResponse : ApiPredictionResponse)
    (bundle : MusicAnalysisOutput) (outputDir : string) (w : World) :
  output apiResponse = Some bundle ->
  exists r w' r0 rest,
    processAnalysisResults apiResponse outputDir w = (r, w')
    /\ w_calls w' = w_calls w ++ (mkdir outputDir true, r0) :: rest
    /\ Forall (within outputDir) rest.
Proof.
  intros Ho. unfold processAnalysisResults. rewrite Ho.
  destruct (fs_exec (mkdir outputDir true) (w_fs w)) as [[[]|e] s0] eqn:Hmk.
  2:{ rewrite (bind_thrown _ _ _ _ _ (fs_call_run _ w _ _ Hmk)).
      eexists _, _, _, []. split; [reflexivity|]. split; [reflexivity|constructor]. }
  rewrite (bind_returned _ _ _ _ _ (fs_call_run _ w _ _ Hmk)), bind_log.
  match goal with |- context [bind _ _ ?w0] => set (w1 := w0) end.
  destruct (processAnalyzerResult_within bundle outputDir w1)
    as ([[]|e] & w2 & cs2 & Hr2 & Hc2 & Hw2).
  2:{ rewrite (bind_thrown _ _ _ _ _ Hr2).
      eexists _, _, _, cs2. split; [reflexivity|]. rewrite Hc2.
      cbn [w1 logged w_calls]. rewrite <- app_assoc. split; [reflexivity|exact Hw2]. }
  rewrite (bind_returned _ _ _ _ _ Hr2).
  destruct (field_block_within bundle "visualization" outputDir "visualization.png"
              "visualization not found in output." w2 (or_introl eq_refl))
    as (w3 & cs3 & Hr3 & Hc3 & Hw3).
  unfold processVisualization at 1. cbv zeta.
  rewrite (bind_returned _ _ _ _ _ Hr3), bind_log.
  match goal with |- context [bind _ _ ?w0] => set (w4 := w0) end.
  destruct (audio_loop_within bundle outputDir audioFileKeys w4 audio_names_in_catalogue)
    as (w5 & cs5 & Hr5 & Hc5 & Hw5).
  rewrite (bind_returned _ _ _ _ _ Hr5).
  eexists _, _, _, (cs2 ++ cs3 ++ cs5). split; [reflexivity|].
  cbn [console_log console_emit snd w_calls]. rewrite Hc5.
  cbn [w4 logged w_calls]. rewrite Hc3, Hc2. cbn [w1 logged w_calls].
  rewrite <- !app_assoc. split; [reflexivity|].
  repeat (apply Forall_app; split); assumption.
Qed.

Lemma bind_ext {A B} (m1 m2 : Async A) (k1 k2 : A -> Async B) w :
  m1 w = m2 w -> (forall a w', k1 a w' = k2 a w') -> bind m1 k1 w = bind m2 k2 w.
Proof.
  intros Hm Hk. unfold bind. rewrite Hm. destruct (m2 w) as [[a|e] w']; [apply Hk|reflexivity].
Qed.

Lemma for_of_ext {A} (l : list A) (f g : A -> Async unit) w :
  (forall x w', In x l -> f x w' = g x w') -> for_of l f w = for_of l g w.
Proof.
  revert w. induction l as [|x l IH]; intros w H; [reflexivity|].
  cbn [for_of]. apply bind_ext.
  - apply H. now left.
  - intros _ w'. apply IH. intros y w'' Hy. apply H. now right.
Qed.

(** [processAnalysisResults] reads the twelve fields of the catalogue and
    nothing else: two responses whose bundles agree on these fields give the
    same run, whatever other fields the bundles have and whatever the
    [status], [logs] and [error] of the responses are. *)
Theorem persist_reads_catalogue_only (r1 r2 : ApiPredictionResponse)
    (b1 b2 : MusicAnalysisOutput) (outputDir : string) (w : World) :
  output r1 = Some b1 -> output r2 = Some b2 ->
  (forall key, In key catalogKeys -> b1 !! key = b2 !! key) ->
  processAnalysisResults r1 outputDir w = processAnalysisResults r2 outputDir w.
Proof.
  intros H1 H2 Hagree. unfold processAnalysisResults. rewrite H1, H2.
  apply bind_ext; [reflexivity|]. intros _ w1.
  apply bind_ext; [reflexivity|]. intros _ w2.
  apply bind_ext.
  { unfold processAnalyzerResult. now rewrite (Hagree "analyzer_result" (or_introl eq_refl)). }
  intros _ w3. apply bind_ext.
  { unfold processVisualization.
    now rewrite (Hagree "visualization" (or_intror (or_introl eq_refl))). }
  intros _ w4. apply bind_ext; [reflexivity|]. intros _ w5.
  apply bind_ext; [|reflexivity].
  apply for_of_ext. intros k w6 Hk. unfold processAudioKey.
  now rewrite (Hagree k (or_intror (or_intror Hk))).
Qed.

(** Two fields never share a file name: [audioFileName] is injective. *)
Theorem audioFileName_injective (k1 k2 : string) :
  audioFileName k1 = audioFileName k2 -> k1 = k2.
Proof.
  unfold audioFileName. cbv zeta.
  destruct (String.eqb_spec k1 "sonification") as [->|H1];
    destruct (String.eqb_spec k2 "sonification") as [->|H2]; intros H.
  - reflexivity.
  - exfalso. change ".mp3" with (".mp" +:+ String "3"%char EmptyString) in H.
    change ".wav" with (".wa" +:+ String "v"%char EmptyString) in H.
    rewrite <- !append_assoc in H. revert H. apply append_last_ne. discriminate.
  - exfalso. change ".mp3" with (".mp" +:+ String "3"%char EmptyString) in H.
    change ".wav" with (".wa" +:+ String "v"%char EmptyString) in H.
    rewrite <- !append_assoc in H. revert H. apply append_last_ne. discriminate.
  - exact (append_inj_l _ _ _ H).
Qed.

End Confinement.

Lemma persist_stays_in_output_directory_witness :
  exists r w' r0 rest,
    processAnalysisResults (RT := Mem.no_audio) (Sample.response (Some Sample.full))
      OUTPUT_DIRECTORY Mem.start_no_audio = (r, w')
    /\ w_calls w' = w_calls Mem.start_no_audio ++ (mkdir OUTPUT_DIRECTORY true, r0) :: rest
    /\ Forall (within (RT := Mem.no_audio) OUTPUT_DIRECTORY) rest.
Proof.
  apply (persist_stays_in_output_directory (RT := Mem.no_audio)
           (Sample.response (Some Sample.full)) Sample.full OUTPUT_DIRECTORY
           Mem.start_no_audio eq_refl).
Defined.

Lemma persist_reads_catalogue_only_witness :
  processAnalysisResults (RT := Mem.ideal)
    {| output := Some (<["extra" := "x"]> Sample.full); logs := Some "log";
       status := Some "failed"; error := Some "model crashed" |}
    OUTPUT_DIRECTORY Mem.start
  = processAnalysisResults (RT := Mem.ideal) (Sample.response (Some Sample.full))
      OUTPUT_DIRECTORY Mem.start.
Proof.
  apply (persist_reads_catalogue_only (RT := Mem.ideal)
           {| output := Some (<["extra" := "x"]> Sample.full); logs := Some "log";
              status := Some "failed"; error := Some "model crashed" |}
           (Sample.response (Some Sample.full))
           (<["extra" := "x"]> Sample.full) Sample.full OUTPUT_DIRECTORY Mem.start
           eq_refl eq_refl).
  intros key Hkey. apply lookup_insert_ne.
  intros <-. vm_compute in Hkey. repeat (destruct Hkey as [Hkey|Hkey]; [discriminate Hkey|]).
  destruct Hkey.
Defined.

Lemma audioFileName_injective_witness :
  audioFileName "mdx_other" = "mdx_other.wav" /\ "mdx_other" = "mdx_other".
Proof.
  split; [reflexivity|].
  apply (audioFileName_injective "mdx_other" "mdx_other"). reflexivity.
Defined.

(** ** More on [processAnalysisResults]: a bundle with fields missing *)

Section PartialBundle.

Context {RT : Runtime}.
Import JS JSFacts Str StrFacts.

Hypothesis writes_succeed :
  forall p d s, fst (fs_exec (writeFile p d) s) = Returned tt.

(** A populated field is saved with one call and one line. *)
Lemma field_block_reports (bundle : MusicAnalysisOutput) key content filePath fileName msg
    (w : World) :
  DataURL.holds bundle key content ->
  exists w',
    match truthy (bundle !! key) with
    | Some u => decodeAndSave (Some u) filePath fileName
    | None => console_warn msg
    end w = (Returned tt, w')
    /\ w_calls w' = w_calls w ++ [(writeFile filePath (Bytes content), Returned tt)]
    /\ w_console w'
       = w_console w ++ [LOG ("Successfully saved " +:+ fileName +:+ " to " +:+ filePath)].
Proof.
  intros H. destruct (holds_truthy _ _ _ H) as (mime & Hm & ->).
  destruct H as (Hne & _). unfold DataURL.of_bytes.
  rewrite (decodeAndSave_run _ filePath fileName w _ w
             (strip_wrap mime _ w Hm) (is_blank_encoding content Hne)).
  cbv zeta. cbn [from_option id]. rewrite Base64Facts.decode_encode.
  write_succeeds writes_succeed s1. eexists. repeat split.
Qed.

Lemma audio_loop_populated (bundle : MusicAnalysisOutput) outputDir content keys
    (w : World) :
  (forall k, In k keys -> populated bundle (k, audioFileName k) = true ->
             DataURL.holds bundle k (content k)) ->
  exists w',
    for_of keys (processAudioKey bundle outputDir) w = (Returned tt, w')
    /\ w_calls w'
       = w_calls w
           ++ map (fun a : string * string =>
                     (writeFile (path_join outputDir (snd a))
                        (Bytes (content (fst a))), Returned tt))
                (List.filter (populated bundle)
                   (map (fun key => (key, audioFileName key)) keys))
    /\ w_console w'
       = w_console w
           ++ map (fun key =>
                     artifactLine bundle outputDir
                       (key +:+ " not found in output or is empty.")
                       (key, audioFileName key)) keys.
Proof.
  revert w. induction keys as [|k keys IH]; intros w H.
  - exists w. rewrite !app_nil_r. repeat split.
  - cbn [for_of map List.filter]. unfold artifactLine at 1.
    destruct (populated bundle (k, audioFileName k)) eqn:Hp.
    + destruct (field_block_reports bundle k (content k)
                  (path_join outputDir (audioFileName k)) (audioFileName k)
                  (k +:+ " not found in output or is empty.") w
                  (H k (or_introl eq_refl) Hp))
        as (w1 & Hr1 & Hc1 & Hl1).
      destruct (IH w1 (fun k' Hk => H k' (or_intror Hk))) as (w2 & Hr2 & Hc2 & Hl2).
      exists w2. rewrite (bind_returned _ _ _ _ _ Hr1), Hr2.
      split; [reflexivity|]. rewrite Hc2, Hc1, Hl2, Hl1, <- !app_assoc.
      split; reflexivity.
    + unfold populated in Hp. cbn [fst] in Hp.
      unfold processAudioKey at 1.
      destruct (truthy (bundle !! k)); [discriminate Hp|].
      rewrite bind_returned with (a := tt)
        (w1 := logged [WARN (k +:+ " not found in output or is empty.")] w)
        by reflexivity.
      destruct (IH (logged [WARN (k +:+ " not found in output or is empty.")] w)
                  (fun k' Hk => H k' (or_intror Hk))) as (w2 & Hr2 & Hc2 & Hl2).
      exists w2. split; [exact Hr2|]. split; [exact Hc2|].
      rewrite Hl2. cbn [logged w_console]. rewrite <- app_assoc. reflexivity.
Qed.

(** On a file system where the directory can be created and writes
    succeed, for a bundle without [analyzer_result] whose binary fields are
    either missing (or empty) or valid data URLs, [processAnalysisResults]
    returns, and after the [mkdir] its calls are the writes of the fields
    that are there, in the order of the catalogue.  A missing field costs a
    warning and no call: the console gets the warning for
    [analyzer_result], then for the image and for each audio key, in the
    order of the catalogue, the report of the saved file when the field is
    there and its warning when it is not. *)
Theorem persist_writes_populated_fields (apiResponse : ApiPredictionResponse)
    (bundle : MusicAnalysisOutput) (outputDir : string)
    (content : string -> list byte) (w : World) :
  output apiResponse = Some bundle ->
  fst (fs_exec (mkdir outputDir true) (w_fs w)) = Returned tt ->
  truthy (bundle !! "analyzer_result") = None ->
  (forall a, In a binaryArtifacts -> populated bundle a = true ->
             DataURL.holds bundle (fst a) (content (fst a))) ->
  exists w',
    processAnalysisResults apiResponse outputDir w = (Returned tt, w')
    /\ w_calls w'
       = w_calls w
           ++ (mkdir outputDir true, Returned tt)
              :: map (fun a : string * string =>
                        (writeFile (path_join outputDir (snd a))
                           (Bytes (content (fst a))), Returned tt))
                   (List.filter (populated bundle) binaryArtifacts)
    /\ w_console w'
       = w_console w
           ++ LOG ("Ensured output directory exists: " +:+ outputDir)
              :: WARN "analyzer_result not found in output."
              :: artifactLine bundle outputDir "visualization not found in output."
                   ("visualization", "visualization.png")
              :: LOG (newline +:+ "--- Processing Audio Files ---")
              :: map (fun key =>
                        artifactLine bundle outputDir
                          (key +:+ " not found in output or is empty.")
                          (key, audioFileName key)) audioFileKeys
              ++ [LOG "--- Finished processing all output fields ---"].
Proof.
  intros Ho Hmk Hjson Hbin. unfold processAnalysisResults. rewrite Ho.
  rewrite (bind_returned _ _ _ _ _ (fs_call_returned _ w Hmk)), bind_log.
  match goal with |- context [bind _ _ ?w0] => set (w1 := w0) end.
  unfold processAnalyzerResult at 1. rewrite Hjson.
  rewrite bind_returned with (a := tt)
    (w1 := logged [WARN "analyzer_result not found in output."] w1) by reflexivity.
  match goal with |- context [bind _ _ ?w0] => set (w2 := w0) end.
  assert (Hloop : forall w4, exists w5,
             for_of audioFileKeys (processAudioKey bundle outputDir) w4 = (Returned tt, w5)
             /\ w_calls w5
                = w_calls w4
                    ++ map (fun a : string * string =>
                              (writeFile (path_join outputDir (snd a))
                                 (Bytes (content (fst a))), Returned tt))
                         (List.filter (populated bundle)
                            (map (fun key => (key, audioFileName key)) audioFileKeys))
             /\ w_console w5
                = w_console w4
                    ++ map (fun key =>
                              artifactLine bundle outputDir
                                (key +:+ " not found in output or is empty.")
                                (key, audioFileName key)) audioFileKeys).
  { intros w4. apply audio_loop_populated. intros k Hk Hp.
    apply (Hbin (k, audioFileName k)); [|exact Hp].
    right. now apply (in_map (fun key => (key, audioFileName key))). }
  unfold binaryArtifacts. cbn [List.filter]. unfold artifactLine at 1.
  destruct (populated bundle ("visualization", "visualization.png")) eqn:Hp.
  - destruct (field_block_reports bundle "visualization"
                (content "visualization")
                (path_join outputDir "visualization.png") "visualization.png"
                "visualization not found in output." w2
                (Hbin _ (or_introl eq_refl) Hp))
      as (w3 & Hr3 & Hc3 & Hl3).
    unfold processVisualization at 1. cbv zeta.
    rewrite (bind_returned _ _ _ _ _ Hr3), bind_log.
    match goal with |- context [bind _ _ ?w0] => set (w4 := w0) end.
    destruct (Hloop w4) as (w5 & Hr5 & Hc5 & Hl5).
    rewrite (bind_returned _ _ _ _ _ Hr5).
    eexists. split; [reflexivity|].
    cbn [console_log console_emit snd w_calls w_console]. rewrite Hc5, Hl5.
    cbn [w4 logged w_calls w_console]. rewrite Hc3, Hl3.
    cbn [w2 w1 logged w_calls w_console map fst snd].
    rewrite <- !app_assoc. split; reflexivity.
  - unfold populated in Hp. cbn [fst] in Hp.
    unfold processVisualization at 1.
    destruct (truthy (bundle !! "visualization")); [discriminate Hp|].
    rewrite bind_returned with (a := tt)
      (w1 := logged [WARN "visualization not found in output."] w2) by reflexivity.
    rewrite bind_log.
    match goal with |- context [bind _ _ ?w0] => set (w4 := w0) end.
    destruct (Hloop w4) as (w5 & Hr5 & Hc5 & Hl5).
    rewrite (bind_returned _ _ _ _ _ Hr5).
    eexists. split; [reflexivity|].
    cbn [console_log console_emit snd w_calls w_console]. rewrite Hc5, Hl5.
    cbn [w4 w2 w1 logged w_calls w_console]. rewrite <- !app_assoc. split; reflexivity.
Qed.

End PartialBundle.

Lemma persist_writes_populated_fields_witness :
  exists w',
    processAnalysisResults (RT := Mem.ideal) (Sample.response (Some Sample.partial))
      OUTPUT_DIRECTORY Mem.start
    = (Returned tt, w')
    /\ w_calls w'
       = [(mkdir OUTPUT_DIRECTORY true, Returned tt);
          (writeFile "analysis_results/visualization.png" (Bytes (bytes_of_string "PNG")),
           Returned tt);
          (writeFile "analysis_results/sonification.mp3" (Bytes Sample.audio),
           Returned tt)]
    /\ w_console w'
       = [LOG "Ensured output directory exists: analysis_results";
          WARN "analyzer_result not found in output.";
          LOG "Successfully saved visualization.png to analysis_results/visualization.png";
          LOG (JS.newline +:+ "--- Processing Audio Files ---");
          WARN "demucs_bass not found in output or is empty.";
          WARN "demucs_drums not found in output or is empty.";
          WARN "demucs_guitar not found in output or is empty.";
          WARN "demucs_other not found in output or is empty.";
          WARN "demucs_piano not found in output or is empty.";
          WARN "demucs_vocals not found in output or is empty.";
          WARN "mdx_instrumental not found in output or is empty.";
          WARN "mdx_other not found in output or is empty.";
          WARN "mdx_vocals not found in output or is empty.";
          LOG "Successfully saved sonification.mp3 to analysis_results/sonification.mp3";
          LOG "--- Finished processing all output fields ---"].
Proof.
  destruct (persist_writes_populated_fields (RT := Mem.ideal) (fun p d s => eq_refl)
              (Sample.response (Some Sample.partial)) Sample.partial OUTPUT_DIRECTORY
              Sample.content Mem.start eq_refl eq_refl)
    as (w' & H1 & H2 & H3).
  - vm_compute. reflexivity.
  - intros a Ha Hp. cbn [binaryArtifacts audioFileKeys map In] in Ha.
    repeat (destruct Ha as [<-|Ha];
            [first [discriminate Hp
                   |split; [discriminate|];
                    first [exists "image/png"; split; vm_compute; reflexivity
                          |exists "audio/mpeg"; split; vm_compute; reflexivity]]|]).
    destruct Ha.
  - exists w'. split; [exact H1|]. split.
    + rewrite H2. vm_compute. reflexivity.
    + rewrite H3. vm_compute. reflexivity.
Defined.

(** ** The whole run: [main] *)

Section MainFacts.

Context {RT : Runtime}.
Import JS JSFacts Str StrFacts.

(** What [fetchMusicAnalysis] returns is the data in the answer of the
    server; it leaves the file system alone. *)
Lemma fetchMusicAnalysis_delivers musicInputUrl visualize sonify (w : World) :
  exists w' ls,
    fetchMusicAnalysis musicInputUrl visualize sonify w
    = (Returned (delivered (fetch API_URL (analysis_request musicInputUrl visualize sonify))),
       w')
    /\ w_fs w' = w_fs w /\ w_calls w' = w_calls w
    /\ w_console w' = w_console w ++ ls.
Proof.
  unfold fetchMusicAnalysis, try_catch, bind, of_outcome, console_log,
    console_warn, console_error, console_emit, ret, delivered.
  cbv zeta. fold (analysis_request musicInputUrl visualize sonify).
  cbn [w_fs w_calls w_console].
  destruct (fetch API_URL _) as [response|e]; [|ran].
  destruct (Http.ok response); cbn [negb].
  - destruct (Http.json response) as [[data|]|e]; [|ran|ran].
    cbn [property_of]. unfold ret.
    destruct (truthy (status data)) as [st|]; [|ran].
    destruct (negb (st =? "succeeded")%string); [|ran].
    cbn [w_fs w_calls w_console].
    destruct (truthy (error data)) as [err|]; ran.
  - destruct (Http.text response) as [errorBody|e]; ran.
Qed.

(** [processAnalysisResults] returns when the directory can be created
    and the diagnostic file can be written. *)
Lemma persist_returns (apiResponse : ApiPredictionResponse) outputDir (w : World) :
  fst (fs_exec (mkdir outputDir true) (w_fs w)) = Returned tt ->
  (forall d s,
      fst (fs_exec
             (writeFile (path_join outputDir "_error_analyzer_result_content.txt") d) s)
      = Returned tt) ->
  exists w' ls,
    processAnalysisResults apiResponse outputDir w = (Returned tt, w')
    /\ w_console w' = w_console w ++ ls.
Proof.
  intros Hmk Hdiag. unfold processAnalysisResults.
  destruct (output apiResponse) as [bundle|].
  2:{ unfold bind, console_error, console_emit, ret.
      destruct (truthy (error apiResponse));
        (eexists _, _; split; [reflexivity|]; cbn [w_console];
         rewrite <- ?app_assoc; reflexivity). }
  rewrite (bind_returned _ _ _ _ _ (fs_call_returned _ w Hmk)), bind_log.
  match goal with |- context [bind _ _ ?w0] => set (w1 := w0) end.
  destruct (processAnalyzerResult_total bundle outputDir w1 Hdiag)
    as (w2 & cs2 & ls2 & Hr2 & _ & Hl2 & _).
  rewrite (bind_returned _ _ _ _ _ Hr2).
  destruct (processVisualization_total bundle outputDir w2)
    as (w3 & cs3 & ls3 & Hr3 & _ & Hl3 & _).
  rewrite (bind_returned _ _ _ _ _ Hr3), bind_log.
  match goal with |- context [bind _ _ ?w0] => set (w4 := w0) end.
  destruct (audio_loop_total bundle outputDir audioFileKeys w4)
    as (w5 & cs5 & ls5 & Hr5 & _ & Hl5 & _).
  rewrite (bind_returned _ _ _ _ _ Hr5).
  unfold console_log, console_emit. eexists _, _. split; [reflexivity|].
  cbn [w_console]. rewrite Hl5. cbn [w4 logged w_console].
  rewrite Hl3, Hl2. cbn [w1 logged w_console]. rewrite <- !app_assoc. reflexivity.
Qed.

(** When the server delivers no data (the request failed, the status is
    not a success, the body is not JSON or is [null]), [main] makes no call
    on the file system: it logs that it failed to retrieve the data, then
    that it finished, and returns. *)
Theorem main_without_data_writes_nothing (argv2 : option string) (w : World) :
  delivered (fetch API_URL (analysis_request (music_url argv2) true true)) = None ->
  exists w' ls,
    main argv2 w = (Returned tt, w')
    /\ w_fs w' = w_fs w
    /\ w_calls w' = w_calls w
    /\ w_console w'
       = w_console w
           ++ LOG "--- Starting Music Analysis Processor ---"
              :: ls
              ++ [ERROR "Failed to retrieve analysis data. Exiting." [];
                  LOG (newline +:+ "--- Processor Finished ---")].
Proof.
  intros Hnone. unfold main. cbv zeta. fold (music_url argv2). rewrite bind_log.
  destruct (fetchMusicAnalysis_delivers (music_url argv2) true true
              (logged [LOG "--- Starting Music Analysis Processor ---"] w))
    as (w1 & ls & Hr & Hf & Hc & Hl).
  rewrite Hnone in Hr. rewrite (bind_returned _ _ _ _ _ Hr).
  unfold bind, console_error, console_log, console_emit.
  eexists _, ls. split; [reflexivity|]. cbn [w_fs w_calls w_console].
  rewrite Hf, Hc, Hl. cbn [logged w_fs w_calls w_console].
  rewrite <- !app_assoc. repeat split.
Qed.

(** [main] returns for every answer of the server and every bundle in it,
    when the output directory can be created and the diagnostic file can
    be written; the last line on the console reports the end of the run. *)
Theorem main_returns (argv2 : option string) (w : World) :
  fst (fs_exec (mkdir OUTPUT_DIRECTORY true) (w_fs w)) = Returned tt ->
  (forall d s,
      fst (fs_exec
             (writeFile (path_join OUTPUT_DIRECTORY "_error_analyzer_result_content.txt") d)
             s)
      = Returned tt) ->
  exists w' ls,
    main argv2 w = (Returned tt, w')
    /\ w_console w' = w_console w ++ ls
    /\ last ls = Some (LOG (newline +:+ "--- Processor Finished ---")).
Proof.
  intros Hmk Hdiag. unfold main. cbv zeta. fold (music_url argv2). rewrite bind_log.
  destruct (fetchMusicAnalysis_delivers (music_url argv2) true true
              (logged [LOG "--- Starting Music Analysis Processor ---"] w))
    as (w1 & ls1 & Hr & Hf & Hc & Hl).
  rewrite (bind_returned _ _ _ _ _ Hr).
  destruct (delivered _) as [data|].
  - assert (Hmk1 : fst (fs_exec (mkdir OUTPUT_DIRECTORY true) (w_fs w1)) = Returned tt)
      by (now rewrite Hf).
    destruct (persist_returns data OUTPUT_DIRECTORY w1 Hmk1 Hdiag) as (w2 & ls2 & Hr2 & Hl2).
    rewrite (bind_returned _ _ _ _ _ Hr2).
    unfold console_log, console_emit. eexists _, ([_] ++ ls1 ++ ls2 ++ [_]).
    split; [reflexivity|]. cbn [w_console]. rewrite Hl2, Hl. cbn [logged w_console].
    split; [now rewrite <- !app_assoc|]. rewrite !app_assoc. apply last_snoc.
  - unfold bind, console_error, console_log, console_emit.
    eexists _, ([_] ++ ls1 ++ [_; _]). split; [reflexivity|].
    cbn [w_console]. rewrite Hl. cbn [logged w_console].
    split; [now rewrite <- !app_assoc|].
    change [?x; ?y] with ([x] ++ [y]). rewrite !app_assoc. apply last_snoc.
Qed.

End MainFacts.

Section MainPersists.

Context {RT : Runtime}.
Import JS JSFacts Str StrFacts.

Hypothesis writes_succeed :
  forall p d s, fst (fs_exec (writeFile p d) s) = Returned tt.

(** The status of the response is advisory: when the server delivers data
    whose output holds valid data URLs under the twelve fields, [main]
    persists the twelve artifacts whatever the [status] and the [error] of
    the response say (on a file system where the directory can be created
    and writes succeed). *)
Theorem main_persists_whatever_the_status (argv2 : option string)
    (data : ApiPredictionResponse) (bundle : MusicAnalysisOutput)
    (json : list byte) (v : JSValue) (content : string -> list byte) (w : World) :
  delivered (fetch API_URL (analysis_request (music_url argv2) true true)) = Some data ->
  output data = Some bundle ->
  fst (fs_exec (mkdir OUTPUT_DIRECTORY true) (w_fs w)) = Returned tt ->
  DataURL.holds bundle "analyzer_result" json ->
  JSON_parse (toString_utf8 json) = Returned v ->
  (forall key, In key ("visualization" :: audioFileKeys) ->
               DataURL.holds bundle key (content key)) ->
  exists w',
    main argv2 w = (Returned tt, w')
    /\ w_calls w'
       = w_calls w
           ++ (mkdir OUTPUT_DIRECTORY true, Returned tt)
              :: (writeFile (path_join OUTPUT_DIRECTORY "analysis.json")
                    (Text (JSON_stringify v)), Returned tt)
              :: map (fun a : string * string =>
                        (writeFile (path_join OUTPUT_DIRECTORY (snd a))
                           (Bytes (content (fst a))), Returned tt))
                   binaryArtifacts.
Proof.
  intros Hdata Ho Hmk Hjson Hv Hbin. unfold main. cbv zeta. fold (music_url argv2).
  rewrite bind_log.
  destruct (fetchMusicAnalysis_delivers (music_url argv2) true true
              (logged [LOG "--- Starting Music Analysis Processor ---"] w))
    as (w1 & ls1 & Hr & Hf & Hc & Hl).
  rewrite Hdata in Hr. rewrite (bind_returned _ _ _ _ _ Hr).
  assert (Hmk1 : fst (fs_exec (mkdir OUTPUT_DIRECTORY true) (w_fs w1)) = Returned tt)
    by (now rewrite Hf).
  destruct (persist_calls writes_succeed data bundle OUTPUT_DIRECTORY content _ w1 Ho Hmk1
              (fun w0 =>
                 processAnalyzerResult_saves writes_succeed bundle OUTPUT_DIRECTORY json v w0
                   Hjson Hv)
              Hbin) as (w2 & Hr2 & Hc2).
  rewrite (bind_returned _ _ _ _ _ Hr2).
  eexists. split; [reflexivity|]. cbn [console_log console_emit snd w_calls].
  rewrite Hc2, Hc. reflexivity.
Qed.

End MainPersists.

Lemma main_without_data_writes_nothing_witness :
  exists w' ls,
    main (RT := Mem.ideal) None Mem.start = (Returned tt, w')
    /\ w_fs w' = Mem.empty
    /\ w_calls w' = []
    /\ w_console w'
       = LOG "--- Starting Music Analysis Processor ---"
           :: ls
           ++ [ERROR "Failed to retrieve analysis data. Exiting." [];
               LOG (JS.newline +:+ "--- Processor Finished ---")].
Proof.
  apply (main_without_data_writes_nothing (RT := Mem.ideal) None Mem.start).
  reflexivity.
Defined.

Lemma main_returns_witness :
  exists w' ls,
    main (RT := Mem.served (Some Sample.failed_with_output)) (Some "https://example.org/a.mp3")
      (Mem.start_served (Some Sample.failed_with_output))
    = (Returned tt, w')
    /\ w_console w' = ls
    /\ last ls = Some (LOG (JS.newline +:+ "--- Processor Finished ---")).
Proof.
  apply (main_returns (RT := Mem.served (Some Sample.failed_with_output))
           (Some "https://example.org/a.mp3")
           (Mem.start_served (Some Sample.failed_with_output))).
  - reflexivity.
  - intros d s. reflexivity.
Defined.

Lemma main_persists_whatever_the_status_witness :
  exists w',
    main (RT := Mem.served (Some Sample.failed_with_output)) None
      (Mem.start_served (Some Sample.failed_with_output))
    = (Returned tt, w')
    /\ length (w_calls w') = 13.
Proof.
  destruct (main_persists_whatever_the_status
              (RT := Mem.served (Some Sample.failed_with_output))
              (fun p d s => eq_refl) None Sample.failed_with_output Sample.full
              (bytes_of_string "{}") Mem.JEmptyObject Sample.content
              (Mem.start_served (Some Sample.failed_with_output))
              eq_refl eq_refl eq_refl sample_full_holds_json eq_refl
              (sample_bundle_holds _))
    as (w' & H1 & H2).
  exists w'. split; [exact H1|]. now rewrite H2.
Defined.
